(** * cardionet: the nmap report parser and the script-name stream classifier

    A shallow embedding of [core/nmap_parsers.py] (class [NmapXMLParser]
    and the script under it), of [core/logs.py] ([Logs]), of the export
    and extras dialogs of [ui/modals.py] and of the command building of
    [cardionet.py], followed by the properties of the design document
    that these functions decide.

    Conventions.
    - A Python [str] is the list of its code points.  A [bytes] object is a
      list of [Byte.byte].
    - A raised exception is the [Raise] case of [result]; state that the
      source mutates (the log widget, the file system) is passed explicitly.
    - The clock read by [datetime.now()] is an argument of the renderer. *)

From Stdlib Require Import Ascii String DecimalString.
From Stdlib Require Import List ZArith NArith Bool Lia.
From Stdlib Require Import Sorted Permutation.
From Stdlib.Strings Require Byte.
Import ListNotations.

Set Implicit Arguments.

(* ================================================================== *)
(** * Part I: the embedding                                            *)
(* ================================================================== *)

(** ** Python values and builtins used by the sources *)

Module Py.

(** Text.  Code points are numbers; source literals are ASCII and are
    written [u "..."]. *)
Definition char := N.
Definition str := list char.
Definition bytes := list Byte.byte.

Definition u (s : string) : str := map N_of_ascii (list_ascii_of_string s).
Definition b (s : string) : bytes := list_byte_of_string s.

(** The line feed, which a string literal of the embedding cannot hold. *)
Definition LF : char := 10%N.
Definition bLF : Byte.byte := Byte.x0a.

Fixpoint str_eqb (s t : str) : bool :=
  match s, t with
  | [], [] => true
  | c :: s', d :: t' => (c =? d)%N && str_eqb s' t'
  | _, _ => false
  end.

(** Truthiness of a [str]: [if s:]. *)
Definition truthy (s : str) : bool :=
  match s with [] => false | _ :: _ => true end.

(** Exceptions.  [Exception_ prefix cause] is a plain [Exception] whose
    message is [prefix] followed by [str(cause)]. *)
Inductive exn : Type :=
| ParseError
| ValueError
| OSError
| LookupError
| UnicodeDecodeError
| Exception_ (prefix : str) (cause : exn).

Inductive result (A : Type) : Type :=
| Ok (a : A)
| Raise (e : exn).
Arguments Raise {A} e.

Definition bind {A B} (m : result A) (k : A -> result B) : result B :=
  match m with
  | Ok a => k a
  | Raise e => Raise e
  end.

(** A [for] loop whose body may raise, collecting the values it builds. *)
Fixpoint for_each {A B} (f : A -> result B) (l : list A) : result (list B) :=
  match l with
  | [] => Ok []
  | x :: l' =>
      bind (f x) (fun y => bind (for_each f l') (fun ys => Ok (y :: ys)))
  end.

(** [bytes.decode()]: strict UTF-8, as Python applies it (shortest form
    only, no surrogates, nothing above U+10FFFF). *)
Definition continuation (n : N) : bool := ((0x80 <=? n) && (n <=? 0xBF))%N.

Fixpoint decode (bs : bytes) : option str :=
  match bs with
  | [] => Some []
  | b0 :: t0 =>
      let n0 := Byte.to_N b0 in
      if (n0 <? 0x80)%N then option_map (cons n0) (decode t0)
      else if ((0xC2 <=? n0) && (n0 <=? 0xDF))%N then
        match t0 with
        | b1 :: t1 =>
            let n1 := Byte.to_N b1 in
            if continuation n1
            then option_map (cons ((n0 - 0xC0) * 64 + (n1 - 0x80))%N)
                            (decode t1)
            else None
        | _ => None
        end
      else if ((0xE0 <=? n0) && (n0 <=? 0xEF))%N then
        match t0 with
        | b1 :: b2 :: t2 =>
            let n1 := Byte.to_N b1 in
            let n2 := Byte.to_N b2 in
            let lo := (if n0 =? 0xE0 then 0xA0 else 0x80)%N in
            let hi := (if n0 =? 0xED then 0x9F else 0xBF)%N in
            if ((lo <=? n1) && (n1 <=? hi))%N && continuation n2
            then option_map
                   (cons ((n0 - 0xE0) * 4096 + (n1 - 0x80) * 64
                          + (n2 - 0x80))%N)
                   (decode t2)
            else None
        | _ => None
        end
      else if ((0xF0 <=? n0) && (n0 <=? 0xF4))%N then
        match t0 with
        | b1 :: b2 :: b3 :: t3 =>
            let n1 := Byte.to_N b1 in
            let n2 := Byte.to_N b2 in
            let n3 := Byte.to_N b3 in
            let lo := (if n0 =? 0xF0 then 0x90 else 0x80)%N in
            let hi := (if n0 =? 0xF4 then 0x8F else 0xBF)%N in
            if ((lo <=? n1) && (n1 <=? hi))%N
               && continuation n2 && continuation n3
            then option_map
                   (cons ((n0 - 0xF0) * 262144 + (n1 - 0x80) * 4096
                          + (n2 - 0x80) * 64 + (n3 - 0x80))%N)
                   (decode t3)
            else None
        | _ => None
        end
      else None
  end.

(** [str.isspace] on one character: the white space of [str.strip()] and
    of [int()]. *)
Definition isspace (c : char) : bool :=
  (((0x09 <=? c) && (c <=? 0x0D))
   || ((0x1C <=? c) && (c <=? 0x20))
   || (c =? 0x85) || (c =? 0xA0) || (c =? 0x1680)
   || ((0x2000 <=? c) && (c <=? 0x200A))
   || (c =? 0x2028) || (c =? 0x2029) || (c =? 0x202F)
   || (c =? 0x205F) || (c =? 0x3000))%N.

Fixpoint lstrip (s : str) : str :=
  match s with
  | [] => []
  | c :: s' => if isspace c then lstrip s' else s
  end.

Definition rstrip (s : str) : str := rev (lstrip (rev s)).

(** [s.strip()] *)
Definition strip (s : str) : str := rstrip (lstrip s).

(** [s.startswith(p)] *)
Fixpoint startswith (s p : str) : bool :=
  match p, s with
  | [], _ => true
  | d :: p', c :: s' => (c =? d)%N && startswith s' p'
  | _ :: _, [] => false
  end.

(** [str(n)] for an [int]. *)

Definition str_of_pos (p : positive) : str :=
  u (NilEmpty.string_of_uint (Pos.to_uint p)).

Definition str_of_Z (z : Z) : str :=
  match z with
  | Z0 => u "0"
  | Zpos p => str_of_pos p
  | Zneg p => u "-" ++ str_of_pos p
  end.

Definition str_of_nat (n : nat) : str := str_of_Z (Z.of_nat n).

(** The decimal digits of Unicode 14.0, the character database of
    CPython 3.11: each code point below is a digit zero and begins a run
    of the ten digits 0 to 9. *)
Definition decimal_zeros : list char :=
  [ 0x30; 0x660; 0x6F0; 0x7C0; 0x966; 0x9E6; 0xA66; 0xAE6; 0xB66; 0xBE6;
    0xC66; 0xCE6; 0xD66; 0xDE6; 0xE50; 0xED0; 0xF20; 0x1040; 0x1090;
    0x17E0; 0x1810; 0x1946; 0x19D0; 0x1A80; 0x1A90; 0x1B50; 0x1BB0;
    0x1C40; 0x1C50; 0xA620; 0xA8D0; 0xA900; 0xA9D0; 0xA9F0; 0xAA50;
    0xABF0; 0xFF10; 0x104A0; 0x10D30; 0x11066; 0x110F0; 0x11136; 0x111D0;
    0x112F0; 0x11450; 0x114D0; 0x11650; 0x116C0; 0x11730; 0x118E0;
    0x11950; 0x11C50; 0x11D50; 0x11DA0; 0x16A60; 0x16AC0; 0x16B50;
    0x1D7CE; 0x1D7D8; 0x1D7E2; 0x1D7EC; 0x1D7F6; 0x1E140; 0x1E2F0;
    0x1E950; 0x1FBF0 ]%N.

(** [unicodedata.decimal(c)]: the value of a decimal digit. *)
Definition decimal (c : char) : option N :=
  option_map (fun zero => (c - zero)%N)
             (find (fun zero => ((zero <=? c) && (c <? zero + 10))%N)
                   decimal_zeros).

Definition is_decimal (c : char) : bool :=
  match decimal c with Some _ => true | None => false end.

(** The white space that [int()] skips: that of [str.isspace] without
    the four separators U+001C to U+001F. *)
Definition int_space (c : char) : bool :=
  isspace c && negb ((0x1C <=? c) && (c <=? 0x1F))%N.

Fixpoint skip_spaces (s : str) : str :=
  match s with
  | [] => []
  | c :: s' => if int_space c then skip_spaces s' else s
  end.

Definition underscore : char := 95%N.

(** [digits acc prev_digit s]: [prev_digit] says that the previous
    character was a digit, so that an underscore may follow. *)
Fixpoint digits (acc : Z) (prev_digit : bool) (s : str) : option Z :=
  match s with
  | [] => if prev_digit then Some acc else None
  | c :: s' =>
      match decimal c with
      | Some d => digits (10 * acc + Z.of_N d) true s'
      | None =>
          if (c =? underscore)%N && prev_digit then digits acc false s'
          else None
      end
  end.

(** [sys.get_int_max_str_digits()], as CPython 3.11 starts with. *)
Definition int_max_str_digits : N := 4300%N.

(** [int(s)] for a [str], base 10: surrounding white space, one optional
    sign, then decimal digits of any script, in which single underscores
    may separate digits; more digits than [int_max_str_digits] are
    refused.  [None] is [ValueError]. *)
Definition int (s : str) : option Z :=
  match rev (skip_spaces (rev (skip_spaces s))) with
  | [] => None
  | c :: s' =>
      let body := if ((c =? 45) || (c =? 43))%N then s' else c :: s' in
      if (int_max_str_digits <? N.of_nat (length (filter is_decimal body)))%N
      then None
      else if (c =? 45)%N then option_map Z.opp (digits 0 false body)
      else digits 0 false body
  end.

(** The upper-case mappings of Unicode 14.0.  A simple mapping is given
    by runs [(first, count, stride, image)]: the characters [first],
    [first + stride], ... ([count] of them) go to [image],
    [image + stride], ...  A special mapping gives one character several
    characters. *)
Definition upper_runs : list (char * N * N * char) :=
  [ (0x61, 26, 1, 0x41); (0xB5, 1, 1, 0x39C); (0xE0, 23, 1, 0xC0);
    (0xF8, 7, 1, 0xD8); (0xFF, 1, 1, 0x178); (0x101, 24, 2, 0x100);
    (0x131, 1, 1, 0x49); (0x133, 3, 2, 0x132); (0x13A, 8, 2, 0x139);
    (0x14B, 23, 2, 0x14A); (0x17A, 3, 2, 0x179); (0x17F, 1, 1, 0x53);
    (0x180, 1, 1, 0x243); (0x183, 2, 2, 0x182); (0x188, 1, 1, 0x187);
    (0x18C, 1, 1, 0x18B); (0x192, 1, 1, 0x191); (0x195, 1, 1, 0x1F6);
    (0x199, 1, 1, 0x198); (0x19A, 1, 1, 0x23D); (0x19E, 1, 1, 0x220);
    (0x1A1, 3, 2, 0x1A0); (0x1A8, 1, 1, 0x1A7); (0x1AD, 1, 1, 0x1AC);
    (0x1B0, 1, 1, 0x1AF); (0x1B4, 2, 2, 0x1B3); (0x1B9, 1, 1, 0x1B8);
    (0x1BD, 1, 1, 0x1BC); (0x1BF, 1, 1, 0x1F7); (0x1C5, 1, 1, 0x1C4);
    (0x1C6, 1, 1, 0x1C4); (0x1C8, 1, 1, 0x1C7); (0x1C9, 1, 1, 0x1C7);
    (0x1CB, 1, 1, 0x1CA); (0x1CC, 1, 1, 0x1CA); (0x1CE, 8, 2, 0x1CD);
    (0x1DD, 1, 1, 0x18E); (0x1DF, 9, 2, 0x1DE); (0x1F2, 1, 1, 0x1F1);
    (0x1F3, 1, 1, 0x1F1); (0x1F5, 1, 1, 0x1F4); (0x1F9, 20, 2, 0x1F8);
    (0x223, 9, 2, 0x222); (0x23C, 1, 1, 0x23B); (0x23F, 2, 1, 0x2C7E);
    (0x242, 1, 1, 0x241); (0x247, 5, 2, 0x246); (0x250, 1, 1, 0x2C6F);
    (0x251, 1, 1, 0x2C6D); (0x252, 1, 1, 0x2C70); (0x253, 1, 1, 0x181);
    (0x254, 1, 1, 0x186); (0x256, 2, 1, 0x189); (0x259, 1, 1, 0x18F);
    (0x25B, 1, 1, 0x190); (0x25C, 1, 1, 0xA7AB); (0x260, 1, 1, 0x193);
    (0x261, 1, 1, 0xA7AC); (0x263, 1, 1, 0x194); (0x265, 1, 1, 0xA78D);
    (0x266, 1, 1, 0xA7AA); (0x268, 1, 1, 0x197); (0x269, 1, 1, 0x196);
    (0x26A, 1, 1, 0xA7AE); (0x26B, 1, 1, 0x2C62); (0x26C, 1, 1, 0xA7AD);
    (0x26F, 1, 1, 0x19C); (0x271, 1, 1, 0x2C6E); (0x272, 1, 1, 0x19D);
    (0x275, 1, 1, 0x19F); (0x27D, 1, 1, 0x2C64); (0x280, 1, 1, 0x1A6);
    (0x282, 1, 1, 0xA7C5); (0x283, 1, 1, 0x1A9); (0x287, 1, 1, 0xA7B1);
    (0x288, 1, 1, 0x1AE); (0x289, 1, 1, 0x244); (0x28A, 2, 1, 0x1B1);
    (0x28C, 1, 1, 0x245); (0x292, 1, 1, 0x1B7); (0x29D, 1, 1, 0xA7B2);
    (0x29E, 1, 1, 0xA7B0); (0x345, 1, 1, 0x399); (0x371, 2, 2, 0x370);
    (0x377, 1, 1, 0x376); (0x37B, 3, 1, 0x3FD); (0x3AC, 1, 1, 0x386);
    (0x3AD, 3, 1, 0x388); (0x3B1, 17, 1, 0x391); (0x3C2, 1, 1, 0x3A3);
    (0x3C3, 9, 1, 0x3A3); (0x3CC, 1, 1, 0x38C); (0x3CD, 2, 1, 0x38E);
    (0x3D0, 1, 1, 0x392); (0x3D1, 1, 1, 0x398); (0x3D5, 1, 1, 0x3A6);
    (0x3D6, 1, 1, 0x3A0); (0x3D7, 1, 1, 0x3CF); (0x3D9, 12, 2, 0x3D8);
    (0x3F0, 1, 1, 0x39A); (0x3F1, 1, 1, 0x3A1); (0x3F2, 1, 1, 0x3F9);
    (0x3F3, 1, 1, 0x37F); (0x3F5, 1, 1, 0x395); (0x3F8, 1, 1, 0x3F7);
    (0x3FB, 1, 1, 0x3FA); (0x430, 32, 1, 0x410); (0x450, 16, 1, 0x400);
    (0x461, 17, 2, 0x460); (0x48B, 27, 2, 0x48A); (0x4C2, 7, 2, 0x4C1);
    (0x4CF, 1, 1, 0x4C0); (0x4D1, 48, 2, 0x4D0); (0x561, 38, 1, 0x531);
    (0x10D0, 43, 1, 0x1C90); (0x10FD, 3, 1, 0x1CBD);
    (0x13F8, 6, 1, 0x13F0); (0x1C80, 1, 1, 0x412); (0x1C81, 1, 1, 0x414);
    (0x1C82, 1, 1, 0x41E); (0x1C83, 2, 1, 0x421); (0x1C85, 1, 1, 0x422);
    (0x1C86, 1, 1, 0x42A); (0x1C87, 1, 1, 0x462); (0x1C88, 1, 1, 0xA64A);
    (0x1D79, 1, 1, 0xA77D); (0x1D7D, 1, 1, 0x2C63);
    (0x1D8E, 1, 1, 0xA7C6); (0x1E01, 75, 2, 0x1E00);
    (0x1E9B, 1, 1, 0x1E60); (0x1EA1, 48, 2, 0x1EA0);
    (0x1F00, 8, 1, 0x1F08); (0x1F10, 6, 1, 0x1F18);
    (0x1F20, 8, 1, 0x1F28); (0x1F30, 8, 1, 0x1F38);
    (0x1F40, 6, 1, 0x1F48); (0x1F51, 4, 2, 0x1F59);
    (0x1F60, 8, 1, 0x1F68); (0x1F70, 2, 1, 0x1FBA);
    (0x1F72, 4, 1, 0x1FC8); (0x1F76, 2, 1, 0x1FDA);
    (0x1F78, 2, 1, 0x1FF8); (0x1F7A, 2, 1, 0x1FEA);
    (0x1F7C, 2, 1, 0x1FFA); (0x1FB0, 2, 1, 0x1FB8); (0x1FBE, 1, 1, 0x399);
    (0x1FD0, 2, 1, 0x1FD8); (0x1FE0, 2, 1, 0x1FE8);
    (0x1FE5, 1, 1, 0x1FEC); (0x214E, 1, 1, 0x2132);
    (0x2170, 16, 1, 0x2160); (0x2184, 1, 1, 0x2183);
    (0x24D0, 26, 1, 0x24B6); (0x2C30, 48, 1, 0x2C00);
    (0x2C61, 1, 1, 0x2C60); (0x2C65, 1, 1, 0x23A); (0x2C66, 1, 1, 0x23E);
    (0x2C68, 3, 2, 0x2C67); (0x2C73, 1, 1, 0x2C72);
    (0x2C76, 1, 1, 0x2C75); (0x2C81, 50, 2, 0x2C80);
    (0x2CEC, 2, 2, 0x2CEB); (0x2CF3, 1, 1, 0x2CF2);
    (0x2D00, 38, 1, 0x10A0); (0x2D27, 1, 1, 0x10C7);
    (0x2D2D, 1, 1, 0x10CD); (0xA641, 23, 2, 0xA640);
    (0xA681, 14, 2, 0xA680); (0xA723, 7, 2, 0xA722);
    (0xA733, 31, 2, 0xA732); (0xA77A, 2, 2, 0xA779);
    (0xA77F, 5, 2, 0xA77E); (0xA78C, 1, 1, 0xA78B);
    (0xA791, 2, 2, 0xA790); (0xA794, 1, 1, 0xA7C4);
    (0xA797, 10, 2, 0xA796); (0xA7B5, 8, 2, 0xA7B4);
    (0xA7C8, 2, 2, 0xA7C7); (0xA7D1, 1, 1, 0xA7D0);
    (0xA7D7, 2, 2, 0xA7D6); (0xA7F6, 1, 1, 0xA7F5);
    (0xAB53, 1, 1, 0xA7B3); (0xAB70, 80, 1, 0x13A0);
    (0xFF41, 26, 1, 0xFF21); (0x10428, 40, 1, 0x10400);
    (0x104D8, 36, 1, 0x104B0); (0x10597, 11, 1, 0x10570);
    (0x105A3, 15, 1, 0x1057C); (0x105B3, 7, 1, 0x1058C);
    (0x105BB, 2, 1, 0x10594); (0x10CC0, 51, 1, 0x10C80);
    (0x118C0, 32, 1, 0x118A0); (0x16E60, 32, 1, 0x16E40);
    (0x1E922, 34, 1, 0x1E900) ]%N.

Definition upper_special : list (char * str) :=
  [ (0xDF, [0x53; 0x53]); (0x149, [0x2BC; 0x4E]); (0x1F0, [0x4A; 0x30C]);
    (0x390, [0x399; 0x308; 0x301]); (0x3B0, [0x3A5; 0x308; 0x301]);
    (0x587, [0x535; 0x552]); (0x1E96, [0x48; 0x331]);
    (0x1E97, [0x54; 0x308]); (0x1E98, [0x57; 0x30A]);
    (0x1E99, [0x59; 0x30A]); (0x1E9A, [0x41; 0x2BE]);
    (0x1F50, [0x3A5; 0x313]); (0x1F52, [0x3A5; 0x313; 0x300]);
    (0x1F54, [0x3A5; 0x313; 0x301]); (0x1F56, [0x3A5; 0x313; 0x342]);
    (0x1F80, [0x1F08; 0x399]); (0x1F81, [0x1F09; 0x399]);
    (0x1F82, [0x1F0A; 0x399]); (0x1F83, [0x1F0B; 0x399]);
    (0x1F84, [0x1F0C; 0x399]); (0x1F85, [0x1F0D; 0x399]);
    (0x1F86, [0x1F0E; 0x399]); (0x1F87, [0x1F0F; 0x399]);
    (0x1F88, [0x1F08; 0x399]); (0x1F89, [0x1F09; 0x399]);
    (0x1F8A, [0x1F0A; 0x399]); (0x1F8B, [0x1F0B; 0x399]);
    (0x1F8C, [0x1F0C; 0x399]); (0x1F8D, [0x1F0D; 0x399]);
    (0x1F8E, [0x1F0E; 0x399]); (0x1F8F, [0x1F0F; 0x399]);
    (0x1F90, [0x1F28; 0x399]); (0x1F91, [0x1F29; 0x399]);
    (0x1F92, [0x1F2A; 0x399]); (0x1F93, [0x1F2B; 0x399]);
    (0x1F94, [0x1F2C; 0x399]); (0x1F95, [0x1F2D; 0x399]);
    (0x1F96, [0x1F2E; 0x399]); (0x1F97, [0x1F2F; 0x399]);
    (0x1F98, [0x1F28; 0x399]); (0x1F99, [0x1F29; 0x399]);
    (0x1F9A, [0x1F2A; 0x399]); (0x1F9B, [0x1F2B; 0x399]);
    (0x1F9C, [0x1F2C; 0x399]); (0x1F9D, [0x1F2D; 0x399]);
    (0x1F9E, [0x1F2E; 0x399]); (0x1F9F, [0x1F2F; 0x399]);
    (0x1FA0, [0x1F68; 0x399]); (0x1FA1, [0x1F69; 0x399]);
    (0x1FA2, [0x1F6A; 0x399]); (0x1FA3, [0x1F6B; 0x399]);
    (0x1FA4, [0x1F6C; 0x399]); (0x1FA5, [0x1F6D; 0x399]);
    (0x1FA6, [0x1F6E; 0x399]); (0x1FA7, [0x1F6F; 0x399]);
    (0x1FA8, [0x1F68; 0x399]); (0x1FA9, [0x1F69; 0x399]);
    (0x1FAA, [0x1F6A; 0x399]); (0x1FAB, [0x1F6B; 0x399]);
    (0x1FAC, [0x1F6C; 0x399]); (0x1FAD, [0x1F6D; 0x399]);
    (0x1FAE, [0x1F6E; 0x399]); (0x1FAF, [0x1F6F; 0x399]);
    (0x1FB2, [0x1FBA; 0x399]); (0x1FB3, [0x391; 0x399]);
    (0x1FB4, [0x386; 0x399]); (0x1FB6, [0x391; 0x342]);
    (0x1FB7, [0x391; 0x342; 0x399]); (0x1FBC, [0x391; 0x399]);
    (0x1FC2, [0x1FCA; 0x399]); (0x1FC3, [0x397; 0x399]);
    (0x1FC4, [0x389; 0x399]); (0x1FC6, [0x397; 0x342]);
    (0x1FC7, [0x397; 0x342; 0x399]); (0x1FCC, [0x397; 0x399]);
    (0x1FD2, [0x399; 0x308; 0x300]); (0x1FD3, [0x399; 0x308; 0x301]);
    (0x1FD6, [0x399; 0x342]); (0x1FD7, [0x399; 0x308; 0x342]);
    (0x1FE2, [0x3A5; 0x308; 0x300]); (0x1FE3, [0x3A5; 0x308; 0x301]);
    (0x1FE4, [0x3A1; 0x313]); (0x1FE6, [0x3A5; 0x342]);
    (0x1FE7, [0x3A5; 0x308; 0x342]); (0x1FF2, [0x1FFA; 0x399]);
    (0x1FF3, [0x3A9; 0x399]); (0x1FF4, [0x38F; 0x399]);
    (0x1FF6, [0x3A9; 0x342]); (0x1FF7, [0x3A9; 0x342; 0x399]);
    (0x1FFC, [0x3A9; 0x399]); (0xFB00, [0x46; 0x46]);
    (0xFB01, [0x46; 0x49]); (0xFB02, [0x46; 0x4C]);
    (0xFB03, [0x46; 0x46; 0x49]); (0xFB04, [0x46; 0x46; 0x4C]);
    (0xFB05, [0x53; 0x54]); (0xFB06, [0x53; 0x54]);
    (0xFB13, [0x544; 0x546]); (0xFB14, [0x544; 0x535]);
    (0xFB15, [0x544; 0x53B]); (0xFB16, [0x54E; 0x546]);
    (0xFB17, [0x544; 0x53D]) ]%N.

(** [s.upper()]: every character by its own mapping. *)
Definition upper_char (c : char) : str :=
  match find (fun e => (fst e =? c)%N) upper_special with
  | Some e => snd e
  | None =>
      match find (fun r =>
                    let '(first, count, stride, _) := r in
                    ((first <=? c) && (c <? first + count * stride)
                     && ((c - first) mod stride =? 0))%N)
                 upper_runs with
      | Some (first, _, _, image) => [(image + (c - first))%N]
      | None => [c]
      end
  end.

Definition upper (s : str) : str := flat_map upper_char s.

(** [f"{s:w}"] for a [str]: padded with spaces on the right up to width
    [w], never cut. *)
Definition pad (w : nat) (s : str) : str :=
  s ++ repeat 32%N (w - length s).

(** [c * n] for a one-character string. *)
Definition times (c : string) (n : nat) : str := concat (repeat (u c) n).

(** [sep.join(lines)] *)
Fixpoint join (sep : str) (lines : list str) : str :=
  match lines with
  | [] => []
  | [l] => l
  | l :: rest => l ++ sep ++ join sep rest
  end.

(** [sorted(l, key=...)] on already computed integer keys: a stable sort.
    An element goes before the first element whose key is not smaller,
    so equal keys keep the order of [l]. *)
Section Sorted.
Variable A : Type.

Fixpoint insert (k : Z) (x : A) (l : list (Z * A)) : list (Z * A) :=
  match l with
  | [] => [(k, x)]
  | (k', y) :: l' =>
      if (k <=? k')%Z then (k, x) :: l
      else (k', y) :: insert k x l'
  end.

Fixpoint sort_keyed (l : list (Z * A)) : list (Z * A) :=
  match l with
  | [] => []
  | (k, x) :: l' => insert k x (sort_keyed l')
  end.

(** [sorted(l, key=key)] where [key] may raise: every key is computed,
    in list order, before anything is compared. *)
Definition sorted (key : A -> result Z) (l : list A) : result (list A) :=
  bind (for_each key l) (fun keys =>
  Ok (map snd (sort_keyed (combine keys l)))).
End Sorted.

(** [s.endswith(p)] *)
Definition endswith (s p : str) : bool := startswith (rev s) (rev p).

(** [s.replace(old, new)] for one-character [old] and [new]. *)
Definition replace (old new : char) (s : str) : str :=
  map (fun c => if (c =? old)%N then new else c) s.

(** [s.split(sep)] for a one-character [sep]: every occurrence cuts, so
    the result is never empty and may hold empty strings. *)
Fixpoint split (sep : char) (s : str) : list str :=
  match s with
  | [] => [[]]
  | c :: s' =>
      if (c =? sep)%N then [] :: split sep s'
      else match split sep s' with
           | w :: ws => (c :: w) :: ws
           | [] => [[c]]
           end
  end.

Definition SPACE : char := 32%N.
Definition SLASH : char := 47%N.
Definition DOT : char := 46%N.

End Py.

Notation "x <- m ;; k" := (Py.bind m (fun x => k))
  (at level 61, m at next level, right associativity).

(** ** [core/logs.py]: the log widget and the script-name classifier *)

Module Logs.
Import Py.

(** The widget, as far as the coroutine uses it: the texts handed to
    [write], oldest first. *)
Record RichLog : Type := { lines : list str }.

Definition write (self : RichLog) (content : str) : RichLog :=
  {| lines := lines self ++ [content] |}.

(** The widget and the two locals of [scripts_stream_process]. *)
Record frame : Type := {
  self : RichLog;
  script_names : list str;
  last_line : str
}.

(** One turn of [async for raw_line in process.stdout].  The two
    [await asyncio.sleep(0)] give control away and change nothing here. *)
Definition loop_body (f : frame) (raw_line : bytes) : result frame :=
  match decode raw_line with
  | None => Raise UnicodeDecodeError
  | Some text =>
      let line := strip text in
      let self' := write (self f) line in
      let script_names' :=
        if truthy (last_line f)
           && startswith line (u "Categories:")
           && (length (script_names f) <=? 25)
        then script_names f ++ [last_line f]
        else script_names f in
      Ok {| self := self'; script_names := script_names'; last_line := line |}
  end.

(** The whole loop.  When a turn raises, the frame reached so far is what
    is left behind, together with the exception. *)
Fixpoint loop (f : frame) (stdout : list bytes) : frame * option exn :=
  match stdout with
  | [] => (f, None)
  | raw_line :: rest =>
      match loop_body f raw_line with
      | Ok f' => loop f' rest
      | Raise e => (f, Some e)
      end
  end.

(** [scripts_stream_process]: [stdout] is the sequence of lines the
    process prints and [returncode] its exit status.  The result is the
    widget afterwards and what the coroutine returns or raises. *)
Definition scripts_stream_process (self0 : RichLog) (stdout : list bytes)
    (returncode : Z) : RichLog * result (list str) :=
  let script_names0 : list str := [] in
  let last_line0 : str := [] in
  match loop {| self := self0; script_names := script_names0;
                last_line := last_line0 |} stdout with
  | (f, Some e) => (self f, Raise e)
  | (f, None) =>
      let self' :=
        write (self f)
              (LF :: u "Process finished with code " ++ str_of_Z returncode) in
      (self', Ok (script_names f))
  end.

(** The widget when the coroutine starts ([filter_scripts] clears it). *)
Definition cleared : RichLog := {| lines := [] |}.

(** [stream_process]: the same loop with nothing collected. *)
Fixpoint stream_loop (self0 : RichLog) (stdout : list bytes)
  : RichLog * option exn :=
  match stdout with
  | [] => (self0, None)
  | line :: rest =>
      match decode line with
      | None => (self0, Some UnicodeDecodeError)
      | Some text =>
          let decoded := strip text in
          stream_loop (write self0 decoded) rest
      end
  end.

Definition stream_process (self0 : RichLog) (stdout : list bytes)
    (returncode : Z) : RichLog * result unit :=
  match stream_loop self0 stdout with
  | (self1, Some e) => (self1, Raise e)
  | (self1, None) =>
      (write self1 (u "Process finished with code " ++ str_of_Z returncode),
       Ok tt)
  end.

(** [self.clear()] *)
Definition clear (self0 : RichLog) : RichLog := {| lines := [] |}.

End Logs.

(** ** [xml.etree.ElementTree], as far as the parser uses it *)

Module ET.
Import Py.

#[warnings="-register-all"]
Inductive Element : Type :=
  element (tag : str) (attrib : list (str * str)) (children : list Element).

Definition tag (e : Element) : str := let (t, _, _) := e in t.
Definition attrib (e : Element) : list (str * str) := let (_, a, _) := e in a.
Definition children (e : Element) : list Element := let (_, _, c) := e in c.

Fixpoint lookup (key : str) (d : list (str * str)) : option str :=
  match d with
  | [] => None
  | (k, v) :: d' => if str_eqb k key then Some v else lookup key d'
  end.

(** [e.get(key)] and [e.get(key, default)] *)
Definition get_opt (e : Element) (key : string) : option str :=
  lookup (u key) (attrib e).

Definition get (e : Element) (key : string) (default : string) : str :=
  match get_opt e key with
  | Some v => v
  | None => u default
  end.

(** [e.findall(tag)]: the direct children with that tag, in document
    order; [e.find(tag)]: the first of them, or [None]. *)
Definition findall (e : Element) (t : string) : list Element :=
  filter (fun c => str_eqb (tag c) (u t)) (children e).

Definition find (e : Element) (t : string) : option Element :=
  List.find (fun c => str_eqb (tag c) (u t)) (children e).

(** What [ET.parse(xml_file)] meets: a file it cannot open, markup that
    is not well formed (an empty file is of this kind), a declared
    encoding that Python does not know or that is multi-byte, or a
    document with a root. *)
Inductive document : Type :=
| Unreadable
| NotWellFormed
| UnknownEncoding
| MultiByteEncoding
| WellFormed (root : Element).

Definition parse (d : document) : result Element :=
  match d with
  | Unreadable => Raise OSError
  | NotWellFormed => Raise ParseError
  | UnknownEncoding => Raise LookupError
  | MultiByteEncoding => Raise ValueError
  | WellFormed root => Ok root
  end.

End ET.

(** ** The file system, as far as a report is written to it *)

Module FS.
Import Py.

(** What a path holds: a regular file, or something that makes
    [open(path, 'w')] fail (no permission, no such directory). *)
Inductive entry : Type :=
| Regular (content : str)
| Denied.

(** Later bindings are at the front; a path with no binding can be
    created. *)
Definition filesystem := list (str * entry).

Fixpoint stat (fs : filesystem) (path : str) : option entry :=
  match fs with
  | [] => None
  | (p, e) :: fs' => if str_eqb p path then Some e else stat fs' path
  end.

(** [with open(path, 'w') as f: f.write(text)].  The failures of the
    model are those of opening: a file that was opened is written in
    full. *)
Definition write_text (fs : filesystem) (path text : str)
  : filesystem * result unit :=
  match stat fs path with
  | Some Denied => (fs, Raise OSError)
  | _ => ((path, Regular text) :: fs, Ok tt)
  end.

End FS.

(** ** [core/nmap_parsers.py]: class [NmapXMLParser] *)

Module NmapXMLParser.
Import Py.

(** *** The model built by the parser

    Each record is one of the dictionaries of the source; a field is the
    dictionary key of (nearly) the same name. *)

Record hostname_entry : Type := { name : str; htype : str }.

Record script_entry : Type := { script_id : str; output : str }.

Record port_info : Type := {
  protocol : str;
  portid : str;
  state : str;
  state_reason : str;
  service : str;
  product : str;
  version : str;
  extrainfo : str;
  method : str;
  conf : str;
  scripts : list script_entry
}.

Record stats : Type := { open : nat; closed : nat; filtered : nat; other : nat }.

Record reason_entry : Type := { reason_text : str; reason_count : Z }.

Record extra_info : Type := {
  extra_state : str;
  extra_count : Z;
  reasons : list reason_entry
}.

Record os_entry : Type := { os_name : str; accuracy : str }.

Record hop_entry : Type := { ttl : str; hop_host : str; ip : str; time : str }.

(** [extraports] is [None] when the dictionary has no such key. *)
Record host_info : Type := {
  host_state : str;
  reason : str;
  addr : str;
  addrtype : str;
  hostnames : list hostname_entry;
  ports : list port_info;
  port_stats : stats;
  extraports : option extra_info;
  os : list os_entry;
  trace : list hop_entry
}.

(** The parser object. *)
Record t : Type := {
  xml_file : str;
  root : ET.Element;
  hosts : list host_info
}.

(** [elem.get(key, default) if elem is not None else default] *)
Definition get_if_present (elem : option ET.Element) (key default : string)
  : str :=
  match elem with
  | Some e => ET.get e key default
  | None => u default
  end.

(** [int(elem.get('count', 0))]: the default is the integer 0. *)
Definition int_count (elem : ET.Element) : result Z :=
  match ET.get_opt elem "count" with
  | None => Ok 0%Z
  | Some text =>
      match int text with
      | Some n => Ok n
      | None => Raise ValueError
      end
  end.

(** *** Parsing *)

Definition _parse_port (port_elem : ET.Element) : port_info :=
  let protocol_ := ET.get port_elem "protocol" "tcp" in
  let portid_ := ET.get port_elem "portid" "unknown" in
  (* Port state *)
  let state_elem := ET.find port_elem "state" in
  let state_ := get_if_present state_elem "state" "unknown" in
  let state_reason_ := get_if_present state_elem "reason" "" in
  (* Service information *)
  let service_elem := ET.find port_elem "service" in
  (* Script output *)
  let scripts_ :=
    map (fun script => {| script_id := ET.get script "id" "";
                          output := ET.get script "output" "" |})
        (ET.findall port_elem "script") in
  {| protocol := protocol_;
     portid := portid_;
     state := state_;
     state_reason := state_reason_;
     service := get_if_present service_elem "name" "unknown";
     product := get_if_present service_elem "product" "";
     version := get_if_present service_elem "version" "";
     extrainfo := get_if_present service_elem "extrainfo" "";
     method := get_if_present service_elem "method" "";
     conf := get_if_present service_elem "conf" "0";
     scripts := scripts_ |}.

(** The four counters after one more port in state [st]. *)
Definition count_state (s : stats) (st : str) : stats :=
  if str_eqb st (u "open") then
    {| open := open s + 1; closed := closed s;
       filtered := filtered s; other := other s |}
  else if str_eqb st (u "closed") then
    {| open := open s; closed := closed s + 1;
       filtered := filtered s; other := other s |}
  else if str_eqb st (u "filtered") then
    {| open := open s; closed := closed s;
       filtered := filtered s + 1; other := other s |}
  else
    {| open := open s; closed := closed s;
       filtered := filtered s; other := other s + 1 |}.

(** The loop over [ports_elem.findall('port')], from the lists and
    counters it has reached. *)
Fixpoint parse_ports (port_elems : list ET.Element)
    (acc : list port_info * stats) : list port_info * stats :=
  match port_elems with
  | [] => acc
  | port :: rest =>
      let port_info_ := _parse_port port in
      parse_ports rest
        (fst acc ++ [port_info_], count_state (snd acc) (state port_info_))
  end.

(** One [extraports] element. *)
Definition parse_extraports (extraports_elem : ET.Element)
  : result extra_info :=
  count_ <- int_count extraports_elem ;;
  reasons_ <- for_each
      (fun reason_elem =>
         n <- int_count reason_elem ;;
         Ok {| reason_text := ET.get reason_elem "reason" "";
               reason_count := n |})
      (ET.findall extraports_elem "extrareasons") ;;
  Ok {| extra_state := ET.get extraports_elem "state" "unknown";
        extra_count := count_;
        reasons := reasons_ |}.

Definition zero_stats : stats :=
  {| open := 0; closed := 0; filtered := 0; other := 0 |}.

Definition _parse_host (host_elem : ET.Element) : result host_info :=
  (* Host status *)
  let status := ET.find host_elem "status" in
  (* Host address (IPv4/IPv6) *)
  let address := ET.find host_elem "address" in
  (* Hostnames *)
  let hostnames_ :=
    match ET.find host_elem "hostnames" with
    | Some hostnames_elem =>
        map (fun hostname => {| name := ET.get hostname "name" "";
                                htype := ET.get hostname "type" "" |})
            (filter (fun hostname => truthy (ET.get hostname "name" ""))
                    (ET.findall hostnames_elem "hostname"))
    | None => []
    end in
  (* Ports *)
  ports_and_extra <-
    match ET.find host_elem "ports" with
    | Some ports_elem =>
        (* Individual ports *)
        let counted := parse_ports (ET.findall ports_elem "port")
                                   ([], zero_stats) in
        (* Extra ports (condensed ports): each one overwrites the key *)
        extras <- for_each parse_extraports
                           (ET.findall ports_elem "extraports") ;;
        Ok (counted, List.last (map Some extras) None)
    | None => Ok (([], zero_stats), None)
    end ;;
  (* OS Detection *)
  let os_ :=
    match ET.find host_elem "os" with
    | Some os_elem =>
        map (fun osmatch => {| os_name := ET.get osmatch "name" "Unknown";
                               accuracy := ET.get osmatch "accuracy" "0" |})
            (ET.findall os_elem "osmatch")
    | None => []
    end in
  (* Trace (Traceroute) *)
  let trace_ :=
    match ET.find host_elem "trace" with
    | Some trace_elem =>
        map (fun hop => {| ttl := ET.get hop "ttl" "";
                           hop_host := ET.get hop "host" "";
                           ip := ET.get hop "ipaddr" "";
                           time := ET.get hop "time" "" |})
            (ET.findall trace_elem "hop")
    | None => []
    end in
  Ok {| host_state := get_if_present status "state" "unknown";
        reason := get_if_present status "reason" "";
        addr := get_if_present address "addr" "N/A";
        addrtype := get_if_present address "addrtype" "ipv4";
        hostnames := hostnames_;
        ports := fst (fst ports_and_extra);
        port_stats := snd (fst ports_and_extra);
        extraports := snd ports_and_extra;
        os := os_;
        trace := trace_ |}.

Definition parse_xml (root_ : ET.Element) : result (list host_info) :=
  for_each _parse_host (ET.findall root_ "host").

(** [NmapXMLParser(xml_file)], where [d] is what the file holds. *)
Definition __init__ (xml_file_ : str) (d : ET.document) : result t :=
  root_ <- ET.parse d ;;
  hosts_ <- parse_xml root_ ;;
  Ok {| xml_file := xml_file_; root := root_; hosts := hosts_ |}.

(** *** Rendering *)

Definition _format_port (port : port_info) : str :=
  (* Build port line *)
  let port_line :=
    u "  " ++ portid port ++ u "/" ++ pad 3 (protocol port) ++ u " "
      ++ pad 8 (state port) ++ u " " ++ pad 15 (service port) in
  (* Add version info if available *)
  let port_line :=
    if truthy (product port) || truthy (version port) then
      let port_line := port_line ++ u " " ++ product port in
      if truthy (version port) then port_line ++ u " " ++ version port
      else port_line
    else port_line in
  (* Add extra info if available *)
  if truthy (extrainfo port)
  then port_line ++ u " (" ++ extrainfo port ++ u ")"
  else port_line.

(** [key=lambda x: int(x['portid'])] *)
Definition port_key (x : port_info) : result Z :=
  match int (portid x) with
  | Some n => Ok n
  | None => Raise ValueError
  end.

(** [[p for p in host['ports'] if p['state'] == st]] *)
Definition ports_in_state (host : host_info) (st : string) : list port_info :=
  filter (fun p => str_eqb (state p) (u st)) (ports host).

Definition nonempty {A} (l : list A) : bool :=
  match l with [] => false | _ :: _ => true end.

(** The lines that open a host: number, rule, address, status. *)
Definition host_heading (host : host_info) (host_num : nat) : list str :=
  [ LF :: u "HOST " ++ str_of_nat host_num;
    times "-" 80;
    u "Address: " ++ addr host ++ u " (" ++ addrtype host ++ u ")";
    u "Status: " ++ upper (host_state host) ++ u " (" ++ reason host ++ u ")" ].

(** Hostnames *)
Definition hostnames_lines (host : host_info) : list str :=
  if nonempty (hostnames host) then
    u "Hostnames:"
      :: map (fun hostname =>
                u "  " ++ name hostname ++ u " (" ++ htype hostname ++ u ")")
             (hostnames host)
  else [].

(** Port summary *)
Definition port_summary_lines (host : host_info) : list str :=
  let stats_ := port_stats host in
  [ LF :: u "Port Summary:";
    u "  Open: " ++ str_of_nat (open stats_)
      ++ u ", Closed: " ++ str_of_nat (closed stats_) ++ u ", "
      ++ u "Filtered: " ++ str_of_nat (filtered stats_)
      ++ u ", Other: " ++ str_of_nat (other stats_) ].

(** Open ports (most important) *)
Definition open_ports_lines (host : host_info) : result (list str) :=
  let open_ports := ports_in_state host "open" in
  if nonempty open_ports then
    sorted_ports <- sorted port_key open_ports ;;
    Ok ((LF :: u "OPEN PORTS (" ++ str_of_nat (length open_ports) ++ u "):")
          :: map _format_port sorted_ports)
  else Ok [].

(** Filtered ports *)
Definition filtered_ports_lines (host : host_info) : result (list str) :=
  let filtered_ports := ports_in_state host "filtered" in
  if nonempty filtered_ports then
    sorted_ports <- sorted port_key filtered_ports ;;
    Ok ((LF :: u "FILTERED PORTS ("
              ++ str_of_nat (length filtered_ports) ++ u "):")
          :: map _format_port (firstn 10 sorted_ports)
          ++ (if 10 <? length filtered_ports then
                [ u "  ... and " ++ str_of_nat (length filtered_ports - 10)
                    ++ u " more filtered ports" ]
              else []))
  else Ok [].

(** Closed ports *)
Definition closed_ports_lines (host : host_info) : result (list str) :=
  let closed_ports := ports_in_state host "closed" in
  if nonempty closed_ports && (length closed_ports <=? 10) then
    sorted_ports <- sorted port_key closed_ports ;;
    Ok ((LF :: u "CLOSED PORTS (" ++ str_of_nat (length closed_ports)
              ++ u "):")
          :: map _format_port sorted_ports)
  else if nonempty closed_ports then
    Ok [ LF :: u "CLOSED PORTS: " ++ str_of_nat (length closed_ports)
            ++ u " ports closed" ]
  else Ok [].

(** Extra ports summary *)
Definition extra_ports_lines (host : host_info) : list str :=
  match extraports host with
  | Some extra =>
      (LF :: u "EXTRA PORTS: " ++ str_of_Z (extra_count extra)
          ++ u " ports " ++ extra_state extra)
        :: map (fun r => u "  " ++ reason_text r ++ u ": "
                           ++ str_of_Z (reason_count r))
               (reasons extra)
  | None => []
  end.

(** OS Detection *)
Definition os_lines (host : host_info) : list str :=
  if nonempty (os host) then
    (LF :: u "OS DETECTION:")
      :: map (fun os_match =>
                u "  " ++ os_name os_match ++ u " (" ++ accuracy os_match
                  ++ u "%)")
             (firstn 3 (os host))
  else [].

(** Traceroute *)
Definition trace_lines (host : host_info) : list str :=
  if nonempty (trace host) then
    (LF :: u "TRACEROUTE:")
      :: map (fun hop =>
                u "  TTL " ++ ttl hop ++ u ": " ++ hop_host hop ++ u " ("
                  ++ ip hop ++ u ") " ++ u "- " ++ time hop ++ u "ms")
             (trace host)
  else [].

(** [_format_host]: the blocks above, in the order of the source.  The
    three port listings may raise, in that order. *)
Definition _format_host (host : host_info) (host_num : nat)
  : result (list str) :=
  let lines := host_heading host host_num in
  let lines := lines ++ hostnames_lines host in
  let lines := lines ++ port_summary_lines host in
  open_ <- open_ports_lines host ;;
  let lines := lines ++ open_ in
  filtered_ <- filtered_ports_lines host ;;
  let lines := lines ++ filtered_ in
  closed_ <- closed_ports_lines host ;;
  let lines := lines ++ closed_ in
  let lines := lines ++ extra_ports_lines host in
  let lines := lines ++ os_lines host in
  let lines := lines ++ trace_lines host in
  Ok lines.

Definition _format_summary (self : t) : list str :=
  let total_open := list_sum (map (fun h => open (port_stats h)) (hosts self)) in
  let total_closed :=
    list_sum (map (fun h => closed (port_stats h)) (hosts self)) in
  let total_filtered :=
    list_sum (map (fun h => filtered (port_stats h)) (hosts self)) in
  let hosts_up :=
    list_sum (map (fun _ => 1)
                  (filter (fun h => str_eqb (host_state h) (u "up"))
                          (hosts self))) in
  [ LF :: times "=" 80;
    u "SCAN SUMMARY";
    times "=" 80;
    u "Total Hosts Scanned: " ++ str_of_nat (length (hosts self));
    u "Hosts Up: " ++ str_of_nat hosts_up;
    LF :: u "Port Statistics (All Hosts):";
    u "  Total Open: " ++ str_of_nat total_open;
    u "  Total Closed: " ++ str_of_nat total_closed;
    u "  Total Filtered: " ++ str_of_nat total_filtered ].

(** The loop [for i, host in enumerate(self.hosts, 1)]. *)
Fixpoint format_hosts (hosts_ : list host_info) (i : nat)
  : result (list str) :=
  match hosts_ with
  | [] => Ok []
  | host :: rest =>
      here <- _format_host host i ;;
      after <- format_hosts rest (S i) ;;
      Ok (here ++ after)
  end.

(** The lines of the report.  [now] is
    [datetime.now().strftime('%Y-%m-%d %H:%M:%S')], the clock read when
    the report is built. *)
Definition report_lines (self : t) (now : str) : result (list str) :=
  (* Header *)
  let lines :=
    [ times "=" 80;
      u "NMAP SCAN REPORT";
      times "=" 80;
      u "Generated: " ++ now;
      u "XML File: " ++ xml_file self;
      [] ] in
  (* Scan summary *)
  let scan_args := ET.get (root self) "args" "N/A" in
  let scan_version := ET.get (root self) "version" "N/A" in
  let lines := lines ++
    [ u "SCAN INFORMATION";
      times "-" 80;
      u "Nmap Version: " ++ scan_version;
      u "Command: " ++ scan_args;
      u "Total Hosts: " ++ str_of_nat (length (hosts self));
      [] ] in
  (* Detailed host information *)
  host_lines <- format_hosts (hosts self) 1 ;;
  let lines := lines ++ host_lines in
  (* Summary statistics *)
  let lines := lines ++ _format_summary self in
  let lines := lines ++ [ times "=" 80 ] in
  Ok lines.

Definition _build_report (self : t) (now : str) : result str :=
  lines <- report_lines self now ;;
  Ok (join [LF] lines).

(** [generate_report(output_file)]: [None] is the default argument; an
    empty path is as good as none. *)
Definition generate_report (self : t) (output_file : option str) (now : str)
    (fs : FS.filesystem) : FS.filesystem * result str :=
  match _build_report self now with
  | Raise e => (fs, Raise e)
  | Ok report =>
      match output_file with
      | Some path =>
          if truthy path then
            match FS.write_text fs path report with
            | (fs', Ok _) => (fs', Ok report)
            | (fs', Raise e) => (fs', Raise e)
            end
          else (fs, Ok report)
      | None => (fs, Ok report)
      end
  end.

End NmapXMLParser.

(** ** [ui/modals.py]: the export of a parsed scan *)

Module ExportModal.
Import Py.

(** [_export_parsed_xml(output_path)]: [self_output_file] is the modal's
    [self.output_file] and [d] what that file holds.  Whatever is raised
    under the [try] comes out as a plain [Exception]. *)
Definition _export_parsed_xml (self_output_file : str) (d : ET.document)
    (output_path : str) (now : str) (fs : FS.filesystem)
  : FS.filesystem * result str :=
  let wrap (e : exn) := Exception_ (u "XML Parsing Error: ") e in
  (* Parse XML *)
  match NmapXMLParser.__init__ self_output_file d with
  | Raise e => (fs, Raise (wrap e))
  | Ok parser =>
      (* Generate report *)
      match NmapXMLParser.generate_report parser None now fs with
      | (fs1, Raise e) => (fs1, Raise (wrap e))
      | (fs1, Ok report) =>
          (* Write to file *)
          match FS.write_text fs1 output_path report with
          | (fs2, Raise e) => (fs2, Raise (wrap e))
          | (fs2, Ok _) => (fs2, Ok output_path)
          end
      end
  end.

End ExportModal.

(** ** [core/nmap_parsers.py]: the script at the end of the file *)

Module ParserScript.
Import Py.



End ParserScript.

(** ** [ui/modals.py]: the handlers of the export and extras dialogs *)

Module Modals.
Import Py.

(** The export dialog: the scan output it was opened on and its two
    inputs. *)
Record ExportModal : Type := {
  output_file : str;
  parsing_value : bool;
  filename_value : str
}.

Section HandleExport.

(** [_export_raw_file], which copies the file with [shutil] and looks at
    the name with [pathlib], is not embedded: [handle_export] is stated
    for whatever it does. *)
Variable _export_raw_file :
  ExportModal -> str -> FS.filesystem -> FS.filesystem * result str.


End HandleExport.

(** The extras dialog: its three checkboxes. *)
Record ExtraModal : Type := {
  verbose_value : bool;
  os_value : bool;
  version_detection_value : bool
}.

(** [ExtraModal.on_button_pressed]: what the dialog is dismissed with. *)
Definition on_button_pressed (self : ExtraModal) : list bool :=
  [verbose_value self; os_value self; version_detection_value self].

End Modals.

(** ** [cardionet.py]: the command built from the scan form *)

Module CardioNetApp.
Import Py.

(** The values of the widgets of [ScanConfiguration]. *)
Record ScanConfiguration : Type := {
  target_value : str;
  scan_type_value : str;
  timing_value : str;
  output_value : str;
  ports_value : str;
  ports_disabled : bool
}.

(** The attributes of the application that the handlers read or write;
    [cmd] is [self.cmd_preview.cmd]. *)
Record t : Type := {
  scan : ScanConfiguration;
  os : bool;
  verbose : bool;
  version_detection : bool;
  script : str;
  output_file : str;
  cmd : str;
  results_log : Logs.RichLog
}.

(** [extension_map.get(value, "txt")] *)
Definition extension (value : str) : str :=
  if str_eqb value (u "oG") then u "gnmap"
  else if str_eqb value (u "oX") then u "xml"
  else u "txt".

Definition target_name (self : t) : str :=
  replace DOT underscore (replace SLASH underscore (target_value (scan self))).

(** [filename], for the time stamp
    [datetime.now().strftime("%Y%m%d_%H%M%S")]. *)
Definition filename (self : t) (timestamp : str) : str :=
  u "/tmp/nmap_scan_" ++ target_name self ++ u "_" ++ timestamp ++ u "."
    ++ extension (output_value (scan self)).

(** [command_as_list] when [handle_parameters_changed] joins it. *)
Definition command_as_list (self : t) (timestamp : str) : list str :=
  let command_as_list := [u "nmap"] in
  (* Scan configuration *)
  let command_as_list :=
    command_as_list ++ [u "-" ++ scan_type_value (scan self)] in
  let command_as_list :=
    command_as_list ++ [u "-" ++ timing_value (scan self)] in
  (* Port range (default to 1-1000 if empty) *)
  let command_as_list :=
    if negb (str_eqb (scan_type_value (scan self)) (u "sn")) then
      command_as_list ++ [u "-p"]
        ++ [if truthy (ports_value (scan self)) then ports_value (scan self)
            else u "1-1000"]
    else command_as_list in
  (* Output *)
  let command_as_list :=
    if negb (str_eqb (output_value (scan self)) []) then
      command_as_list
        ++ [u "-oN /tmp/nmap_scan_" ++ target_name self ++ u "_" ++ timestamp
              ++ u ".nmap"]
        ++ [u "-" ++ output_value (scan self) ++ u " "
              ++ filename self timestamp]
    else command_as_list in
  (* Optional features *)
  let command_as_list :=
    if os self then command_as_list ++ [u "-O"] else command_as_list in
  let command_as_list :=
    if version_detection self then command_as_list ++ [u "-sV"]
    else command_as_list in
  let command_as_list :=
    if truthy (script self)
       && negb (str_eqb (script self) (u "Select.BLANK"))
    then command_as_list ++ [u "--script=" ++ script self]
    else command_as_list in
  let command_as_list :=
    if verbose self then command_as_list ++ [u "-vv"] else command_as_list in
  (* Target *)
  if truthy (strip (target_value (scan self)))
  then command_as_list ++ [target_value (scan self)]
  else command_as_list.

Definition handle_parameters_changed (self : t) (timestamp : str) : t :=
  let scan' :=
    if negb (str_eqb (scan_type_value (scan self)) (u "sn")) then scan self
    else {| target_value := target_value (scan self);
            scan_type_value := scan_type_value (scan self);
            timing_value := timing_value (scan self);
            output_value := output_value (scan self);
            ports_value := ports_value (scan self);
            ports_disabled := true |} in
  let output_file' :=
    if negb (str_eqb (output_value (scan self)) [])
    then filename self timestamp
    else output_file self in
  {| scan := scan';
     os := os self;
     verbose := verbose self;
     version_detection := version_detection self;
     script := script self;
     output_file := output_file';
     (* Update command preview *)
     cmd := join [SPACE] (command_as_list self timestamp);
     results_log := results_log self |}.

(** [_get_extra_options(options)]: unpacking anything but three values
    raises [ValueError]. *)
Definition _get_extra_options (self : t) (options : list bool) : result t :=
  match options with
  | [verbose_; os_; version_detection_] =>
      Ok {| scan := scan self;
            os := os_;
            verbose := verbose_;
            version_detection := version_detection_;
            script := script self;
            output_file := output_file self;
            cmd := cmd self;
            results_log := results_log self |}
  | _ => Raise ValueError
  end.

Definition with_log (self : t) (log : Logs.RichLog) : t :=
  {| scan := scan self;
     os := os self;
     verbose := verbose self;
     version_detection := version_detection self;
     script := script self;
     output_file := output_file self;
     cmd := cmd self;
     results_log := log |}.

(** [action_run_scan]: the log is cleared and the command, cut at its
    spaces, is run.  [process] is the outside world: given the argument
    list, either the program cannot be started, or it prints lines and
    returns a status. *)
Definition action_run_scan (self : t)
    (process : list str -> result (list bytes * Z)) : t * result unit :=
  let log_widget := Logs.clear (results_log self) in
  let command := split SPACE (cmd self) in
  match process command with
  | Raise e => (with_log self log_widget, Raise e)
  | Ok (stdout, returncode) =>
      let (log', outcome) :=
        Logs.stream_process log_widget stdout returncode in
      (with_log self log', outcome)
  end.

End CardioNetApp.

(** ** Vocabulary of the statements

    Definitions that the properties below are phrased with.  None of them
    is part of the program. *)

Module Stream.
Import Py Logs.

(** The process output as text: every line decoded, if all of them are
    UTF-8. *)
Fixpoint texts (stdout : list bytes) : option (list str) :=
  match stdout with
  | [] => Some []
  | raw_line :: rest =>
      match decode raw_line, texts rest with
      | Some t, Some ts => Some (t :: ts)
      | _, _ => None
      end
  end.

(** The lines before the first one that is not UTF-8, decoded. *)
Fixpoint decoded_prefix (stdout : list bytes) : list str :=
  match stdout with
  | [] => []
  | raw_line :: rest =>
      match decode raw_line with
      | Some t => t :: decoded_prefix rest
      | None => []
      end
  end.

Definition all_decode (stdout : list bytes) : bool :=
  forallb (fun raw_line => match decode raw_line with
                           | Some _ => true
                           | None => false
                           end) stdout.

(** The completion marker. *)
Definition completion (returncode : Z) : str :=
  LF :: u "Process finished with code " ++ str_of_Z returncode.

(** A line as printed, without its line feed. *)
Definition without_newline (text : str) : str :=
  match rev text with
  | c :: r => if (c =? LF)%N then rev r else text
  | [] => text
  end.

(** "Every line forwarded verbatim to a sink in arrival order": the sink
    starts with the lines of the output, as they were printed. *)
Definition forwarded_verbatim (stdout : list bytes) (sink : list str) : Prop :=
  exists ts, texts stdout = Some ts
             /\ firstn (length ts) sink = map without_newline ts.

(** The detection rule in the words of the design document: the line
    before is not empty, the line begins with the marker, and fewer names
    than the cap have been collected. *)
Definition cap : nat := 25.

Definition recognized (P L : str) (collected : nat) : bool :=
  truthy P && startswith L (u "Categories:") && (collected <? cap).

(** What the coroutine returns, and what it leaves in a cleared widget. *)
Definition names_of (stdout : list bytes) : result (list str) :=
  snd (scripts_stream_process cleared stdout 0).

Definition sink_of (stdout : list bytes) : list str :=
  lines (fst (scripts_stream_process cleared stdout 0)).

(** [n] header pairs with the names script1, script2, ... *)
Definition script_name (k : nat) : str := u "script" ++ str_of_nat k.

Definition header_pair (k : nat) : list bytes :=
  [ b "script" ++ b (NilEmpty.string_of_uint (Nat.to_uint k)) ++ [bLF];
    b "Categories: safe" ++ [bLF] ].

Definition header_pairs (n : nat) : list bytes :=
  flat_map header_pair (seq 1 n).

(** Two lines as [nmap --script-help] lays them out when the listing is
    indented. *)
Definition indented_listing : list bytes :=
  [ b "http-title" ++ [bLF];
    b "  Categories: default discovery safe" ++ [bLF] ].

Definition alpha_beta : list bytes :=
  [ b "alpha"; b "Categories: x"; b "beta"; b "Categories: y" ].

(** The rule as stated, for the line [raw_line] that arrives after the
    lines [pre]: a name is added exactly when [recognized] holds of the line
    forwarded before, of the line and of the number of names so far, and
    the name added is the line forwarded before. *)
Definition rule_as_stated (pre : list bytes) (raw_line : bytes) : Prop :=
  forall ts text names,
    texts pre = Some ts -> decode raw_line = Some text ->
    names_of pre = Ok names ->
    let P := last (map strip ts) [] in
    names_of (pre ++ [raw_line])
      = Ok (if recognized P (without_newline text) (length names)
            then names ++ [P] else names).

(** The header names of a text: every non-empty line that is directly
    followed by a line beginning with the marker.  [prev] is the line
    before the first of [ls]. *)
Definition marker : str := u "Categories:".

Fixpoint headers (prev : str) (ls : list str) : list str :=
  match ls with
  | [] => []
  | l :: rest =>
      (if truthy prev && startswith l marker then [prev] else [])
        ++ headers l rest
  end.

(** Output with a line that is not UTF-8 in the middle. *)
Definition broken_output : list bytes :=
  [ b "Starting Nmap" ++ [bLF]; [Byte.xff; Byte.xfe]; b "done" ++ [bLF] ].

End Stream.

Module Report.
Import Py NmapXMLParser.

(** A port whose [portid] reads as an integer, and that integer. *)
Definition numeric (p : port_info) : Prop := int (portid p) <> None.

Definition port_number (p : port_info) : Z :=
  match int (portid p) with
  | Some n => n
  | None => 0%Z
  end.

(** [l'] lists all of [l] in ascending order of [key], elements of equal
    key in the order they have in [l]. *)
Definition ascending_stable {A} (key : A -> Z) (l l' : list A) : Prop :=
  Permutation l l'
  /\ StronglySorted (fun x y => (key x <= key y)%Z) l'
  /\ forall k, filter (fun x => (key x =? k)%Z) l'
               = filter (fun x => (key x =? k)%Z) l.

(** The fixed lines of the three port listings. *)
Definition open_header (n : nat) : str :=
  LF :: u "OPEN PORTS (" ++ str_of_nat n ++ u "):".

Definition filtered_header (n : nat) : str :=
  LF :: u "FILTERED PORTS (" ++ str_of_nat n ++ u "):".

Definition and_more (n : nat) : str :=
  u "  ... and " ++ str_of_nat n ++ u " more filtered ports".

Definition closed_header (n : nat) : str :=
  LF :: u "CLOSED PORTS (" ++ str_of_nat n ++ u "):".

Definition closed_count_line (n : nat) : str :=
  LF :: u "CLOSED PORTS: " ++ str_of_nat n ++ u " ports closed".

(** The lines of a host before and after its port listings. *)
Definition before_listings (host : host_info) (host_num : nat) : list str :=
  host_heading host host_num ++ hostnames_lines host
    ++ port_summary_lines host.

Definition after_listings (host : host_info) : list str :=
  extra_ports_lines host ++ os_lines host ++ trace_lines host.

(** The ports of a host whose state is [st], in document order. *)
Definition ports_with_state (host : host_info) (st : string)
  : list port_info :=
  filter (fun p => if list_eq_dec N.eq_dec (state p) (u st)
                   then true else false)
         (ports host).






(** The counters [s] count the ports [l]. *)
Definition counted (l : list port_info) (s : stats) : Prop :=
  open s + closed s + filtered s + other s = length l
  /\ open s = length (filter (fun p => str_eqb (state p) (u "open")) l)
  /\ closed s = length (filter (fun p => str_eqb (state p) (u "closed")) l)
  /\ filtered s
     = length (filter (fun p => str_eqb (state p) (u "filtered")) l).

(** A rendering step gives lines or raises [ValueError]. *)
Definition lines_or_ValueError (r : result (list str)) : Prop :=
  (exists ls, r = Ok ls) \/ r = Raise ValueError.

(** The ports whose port id the renderer converts: the open ones, the
    filtered ones, and the closed ones when there are at most 10. *)
Definition listed_ports (host : host_info) : list port_info :=
  ports_with_state host "open" ++ ports_with_state host "filtered"
    ++ (if length (ports_with_state host "closed") <=? 10
        then ports_with_state host "closed" else []).

Definition renderable (host : host_info) : Prop :=
  Forall numeric (listed_ports host).

(** The ports of a whole model in state [st]. *)
Definition all_in_state (self : t) (st : string) : list port_info :=
  filter (fun p => str_eqb (state p) (u st)) (flat_map ports (hosts self)).

(** The text of a report before the time stamp. *)
Definition banner : str :=
  join [LF] [ times "=" 80; u "NMAP SCAN REPORT"; times "=" 80;
              u "Generated: " ].

(** The report of a model without hosts, line by line. *)
Definition empty_report_lines (xml_file_ args version_ now : str)
  : list str :=
  [ times "=" 80; u "NMAP SCAN REPORT"; times "=" 80;
    u "Generated: " ++ now; u "XML File: " ++ xml_file_; [];
    u "SCAN INFORMATION"; times "-" 80;
    u "Nmap Version: " ++ version_; u "Command: " ++ args;
    u "Total Hosts: 0"; [];
    LF :: times "=" 80; u "SCAN SUMMARY"; times "=" 80;
    u "Total Hosts Scanned: 0"; u "Hosts Up: 0";
    LF :: u "Port Statistics (All Hosts):";
    u "  Total Open: 0"; u "  Total Closed: 0"; u "  Total Filtered: 0";
    times "=" 80 ].

End Report.

Module Documents.
Import Py.
Local Open Scope string_scope.

(** An element written with literal names and values. *)
Definition elem (t : string) (attrs : list (string * string))
    (children : list ET.Element) : ET.Element :=
  ET.element (u t) (map (fun kv => (u (fst kv), u (snd kv))) attrs) children.

(** Does the [count] attribute of [e], when there is one, read as an
    integer? *)
Definition count_reads (e : ET.Element) : bool :=
  match ET.get_opt e "count" with
  | None => true
  | Some text => match int text with Some _ => true | None => false end
  end.

(** Every [count] that the parser converts reads as an integer: those of
    the [extraports] elements of the first [ports] element of each host,
    and of their [extrareasons]. *)
Definition extraports_reads (e : ET.Element) : bool :=
  count_reads e && forallb count_reads (ET.findall e "extrareasons").

Definition host_reads (h : ET.Element) : bool :=
  match ET.find h "ports" with
  | Some ports_elem =>
      forallb extraports_reads (ET.findall ports_elem "extraports")
  | None => true
  end.

Definition counts_read (root : ET.Element) : bool :=
  forallb host_reads (ET.findall root "host").

(** A scan of one host with one port: [<port>] with the given
    attributes and a [<state>] child. *)
Definition one_port_root (port_attrs : list (string * string)) (st : string)
  : ET.Element :=
  elem "nmaprun" [("args", "nmap -p 80 10.0.0.1"); ("version", "7.94")]
    [ elem "host" []
        [ elem "status" [("state", "up"); ("reason", "echo-reply")] [];
          elem "address" [("addr", "10.0.0.1"); ("addrtype", "ipv4")] [];
          elem "ports" []
            [ elem "port" port_attrs [ elem "state" [("state", st)] [] ] ]
        ] ].

Definition port_80_open : ET.document :=
  ET.WellFormed (one_port_root [("portid", "80")] "open").

(** The port has no [portid], or one that is a service name. *)
Definition unnumbered_root (st : string) : ET.Element := one_port_root [] st.

Definition unnumbered (st : string) : ET.document :=
  ET.WellFormed (unnumbered_root st).

Definition misnumbered (st : string) : ET.document :=
  ET.WellFormed (one_port_root [("portid", "http")] st).

(** A scan whose condensed ports carry a count that is not a number. *)
Definition bad_count_root : ET.Element :=
  elem "nmaprun" [("args", "nmap 10.0.0.1"); ("version", "7.94")]
    [ elem "host" []
        [ elem "ports" []
            [ elem "extraports" [("state", "closed"); ("count", "many")] []
            ] ] ].

Definition bad_count : ET.document := ET.WellFormed bad_count_root.

(** A scan with no host. *)
Definition no_host_root : ET.Element :=
  elem "nmaprun" [("args", "nmap 10.0.0.1"); ("version", "7.94")] [].

Definition no_host : ET.document := ET.WellFormed no_host_root.

(** A host element with an address and nothing else. *)
Definition bare_host : ET.Element :=
  elem "host" [] [ elem "address" [("addr", "10.0.0.1")] [] ].

(** A host with two names, one of them empty, and two [ports]
    elements. *)
Definition two_ports_elements : ET.Element :=
  elem "host" []
    [ elem "hostnames" []
        [ elem "hostname" [("name", ""); ("type", "user")] [];
          elem "hostname" [("name", "a.example"); ("type", "PTR")] [] ];
      elem "ports" []
        [ elem "extraports" [("state", "closed"); ("count", "990")] [];
          elem "port" [("portid", "22")] [];
          elem "extraports" [("state", "filtered"); ("count", "9")] [] ] ].

Definition second_ports : ET.Element :=
  elem "ports" [] [ elem "port" [("portid", "80")] [] ].

(** The integer that a [count] attribute stands for: 0 when there is
    none, nothing when its text is no integer. *)
Definition count_value (e : ET.Element) : option Z :=
  match ET.get_opt e "count" with
  | None => Some 0%Z
  | Some text => int text
  end.

(** What the model keeps of a [port], of an [extraports] and of a
    [host] element: the texts of [portid], [conf] and [accuracy], or
    their defaults, and the values of the counts of the last
    [extraports] element. *)
Definition port_kept (port_elem : ET.Element)
    (port : NmapXMLParser.port_info) : Prop :=
  NmapXMLParser.portid port = ET.get port_elem "portid" "unknown"
  /\ NmapXMLParser.conf port
     = match ET.find port_elem "service" with
       | Some service_elem => ET.get service_elem "conf" "0"
       | None => u "0"
       end.

Definition extra_kept (extra_elem : ET.Element)
    (extra : NmapXMLParser.extra_info) : Prop :=
  count_value extra_elem = Some (NmapXMLParser.extra_count extra)
  /\ Forall2 (fun reason_elem r =>
                count_value reason_elem
                = Some (NmapXMLParser.reason_count r))
             (ET.findall extra_elem "extrareasons")
             (NmapXMLParser.reasons extra).

Definition host_kept (host_elem : ET.Element)
    (h : NmapXMLParser.host_info) : Prop :=
  Forall2 port_kept
          match ET.find host_elem "ports" with
          | Some ports_elem => ET.findall ports_elem "port"
          | None => []
          end
          (NmapXMLParser.ports h)
  /\ Forall2 (fun osmatch o =>
                NmapXMLParser.accuracy o = ET.get osmatch "accuracy" "0")
             match ET.find host_elem "os" with
             | Some os_elem => ET.findall os_elem "osmatch"
             | None => []
             end
             (NmapXMLParser.os h)
  /\ match ET.find host_elem "ports" with
     | Some ports_elem =>
         match List.last (map Some (ET.findall ports_elem "extraports"))
                         None with
         | Some last_elem =>
             exists extra,
               NmapXMLParser.extraports h = Some extra
               /\ extra_kept last_elem extra
         | None => NmapXMLParser.extraports h = None
         end
     | None => NmapXMLParser.extraports h = None
     end.

(** A scan of two hosts.  The first has a port without [portid], a port
    whose [portid] is a service name, an OS match whose accuracy is a
    word, condensed ports without a count and with the count 990, whose
    reason has the count 3 written as the Arabic-Indic digit U+0663.
    The second has an address only. *)
Definition mixed_scan_root : ET.Element :=
  elem "nmaprun" [("args", "nmap -O 10.0.0.0/30"); ("version", "7.94")]
    [ elem "host" []
        [ elem "ports" []
            [ elem "extraports" [("state", "filtered")] [];
              elem "port" [("protocol", "tcp")]
                [ elem "state" [("state", "open")] [] ];
              elem "port" [("portid", "http")]
                [ elem "state" [("state", "closed")] [];
                  elem "service" [("name", "http")] [] ];
              elem "extraports" [("state", "closed"); ("count", "990")]
                [ ET.element (u "extrareasons")
                    [(u "reason", u "resets"); (u "count", [0x663%N])] [] ] ];
          elem "os" []
            [ elem "osmatch" [("name", "Linux"); ("accuracy", "high")] [];
              elem "osmatch" [("name", "BSD")] [] ] ];
      bare_host ].

(** The parse contract as stated: a model for every document with a
    root, [ParseError] and nothing else when no root can be read from
    the text of the file.  A file that cannot be opened is no document
    and the contract says nothing of it. *)
Definition parses_unless_malformed (d : ET.document) : Prop :=
  forall xml_file_,
    match d with
    | ET.WellFormed _ => exists p, NmapXMLParser.__init__ xml_file_ d = Ok p
    | ET.Unreadable => True
    | _ => NmapXMLParser.__init__ xml_file_ d = Raise ParseError
    end.

Definition scan_xml : str := u "scan.xml".

(** The model of [no_host]. *)
Definition no_host_parser : NmapXMLParser.t :=
  {| NmapXMLParser.xml_file := scan_xml;
     NmapXMLParser.root := no_host_root;
     NmapXMLParser.hosts := [] |}.

(** A port and a host as the parser builds them from [one_port]. *)
Definition port (id st : string) : NmapXMLParser.port_info :=
  {| NmapXMLParser.protocol := u "tcp";
     NmapXMLParser.portid := u id;
     NmapXMLParser.state := u st;
     NmapXMLParser.state_reason := [];
     NmapXMLParser.service := u "unknown";
     NmapXMLParser.product := [];
     NmapXMLParser.version := [];
     NmapXMLParser.extrainfo := [];
     NmapXMLParser.method := [];
     NmapXMLParser.conf := u "0";
     NmapXMLParser.scripts := [] |}.

Definition host_with (ports_ : list NmapXMLParser.port_info)
  : NmapXMLParser.host_info :=
  {| NmapXMLParser.host_state := u "up";
     NmapXMLParser.reason := u "echo-reply";
     NmapXMLParser.addr := u "10.0.0.1";
     NmapXMLParser.addrtype := u "ipv4";
     NmapXMLParser.hostnames := [];
     NmapXMLParser.ports := ports_;
     NmapXMLParser.port_stats :=
       fold_left NmapXMLParser.count_state
                 (map NmapXMLParser.state ports_) NmapXMLParser.zero_stats;
     NmapXMLParser.extraports := None;
     NmapXMLParser.os := [];
     NmapXMLParser.trace := [] |}.

(** The host of [unnumbered "closed"]: one closed port, stored with the
    default [unknown] for its missing [portid]. *)
Definition unknown_closed_host : NmapXMLParser.host_info :=
  host_with [port "unknown" "closed"].


(** A host for which five OS matches are stored. *)
Definition five_matches : NmapXMLParser.host_info :=
  {| NmapXMLParser.host_state := u "up";
     NmapXMLParser.reason := [];
     NmapXMLParser.addr := u "10.0.0.1";
     NmapXMLParser.addrtype := u "ipv4";
     NmapXMLParser.hostnames := [];
     NmapXMLParser.ports := [];
     NmapXMLParser.port_stats := NmapXMLParser.zero_stats;
     NmapXMLParser.extraports := None;
     NmapXMLParser.os :=
       map (fun a => {| NmapXMLParser.os_name := u "Linux";
                        NmapXMLParser.accuracy := u a |})
           ["98"; "95"; "93"; "90"; "88"];
     NmapXMLParser.trace := [] |}.


(** The document [d] parses to one host with one port, in state [st] and
    with the port id [id], which does not read as an integer; and the
    model does not render, whatever the clock says. *)
Definition parses_but_does_not_render (d : ET.document) (st id : string)
  : Prop :=
  exists p h port,
    NmapXMLParser.__init__ scan_xml d = Ok p
    /\ NmapXMLParser.hosts p = [h]
    /\ NmapXMLParser.ports h = [port]
    /\ NmapXMLParser.state port = u st
    /\ NmapXMLParser.portid port = u id
    /\ int (u id) = None
    /\ forall now, NmapXMLParser._build_report p now = Raise ValueError.

(** Determinism as stated: two renderings of one model give the same
    text, whatever the clock reads at each of them. *)
Definition renders_identically (self : NmapXMLParser.t) : Prop :=
  forall now1 now2,
    NmapXMLParser._build_report self now1
    = NmapXMLParser._build_report self now2.

(** The write contract as stated: what the caller is given on a failed
    write is the I/O failure itself. *)
Definition surfaces_io_failure (outcome : result str) : Prop :=
  outcome = Raise OSError.
Definition noon : str := u "2024-01-01 12:00:00".
Definition noon_and_a_second : str := u "2024-01-01 12:00:01".

(** A file system in which the export path cannot be written. *)
Definition out_txt : str := u "/root/out.txt".
Definition read_only : FS.filesystem := [(out_txt, FS.Denied)].

End Documents.

Module Forms.
Import Py.
Local Open Scope string_scope.










(** The form as the user has filled it in: a SYN scan of a network, XML
    output, nothing else ticked. *)
Definition syn_scan_xml : CardioNetApp.t :=
  {| CardioNetApp.scan :=
       {| CardioNetApp.target_value := u "192.168.1.0/24";
          CardioNetApp.scan_type_value := u "sS";
          CardioNetApp.timing_value := u "T4";
          CardioNetApp.output_value := u "oX";
          CardioNetApp.ports_value := [];
          CardioNetApp.ports_disabled := false |};
     CardioNetApp.os := false;
     CardioNetApp.verbose := false;
     CardioNetApp.version_detection := false;
     CardioNetApp.script := [];
     CardioNetApp.output_file := [];
     CardioNetApp.cmd := u "$ nmap";
     CardioNetApp.results_log := Logs.cleared |}.

Definition stamp : str := u "20240101_120000".

(** The extras dialog with OS detection and verbose ticked. *)
Definition os_and_verbose : Modals.ExtraModal :=
  {| Modals.verbose_value := true;
     Modals.os_value := true;
     Modals.version_detection_value := false |}.

End Forms.

(* ================================================================== *)
(** * Part II: properties                                              *)
(* ================================================================== *)

(** ** Facts about the builtins *)

Section PyFacts.
Import Py.

Lemma str_eqb_eq (s t : str) : str_eqb s t = true <-> s = t.
Proof.
  revert t; induction s as [|c s IH]; intros [|d t]; simpl;
    try (split; [discriminate | discriminate]); try tauto.
  rewrite andb_true_iff, N.eqb_eq, IH.
  split; [intros [-> ->]; reflexivity | intros H; inversion H; auto].
Qed.

Lemma str_eqb_refl (s : str) : str_eqb s s = true.
Proof. apply str_eqb_eq; reflexivity. Qed.

Lemma bind_Ok {A B} (m : result A) (k : A -> result B) (r : B) :
  bind m k = Ok r -> exists a, m = Ok a /\ k a = Ok r.
Proof. destruct m as [a|e]; simpl; [eauto | discriminate]. Qed.

Lemma last_cons {A} (x d : A) (l : list A) : last (x :: l) d = last l x.
Proof.
  revert x d; induction l as [|y l IH]; intros x d; [reflexivity|].
  change (last (x :: y :: l) d) with (last (y :: l) d).
  rewrite (IH y d), (IH y x); reflexivity.
Qed.

End PyFacts.

(** ** The stream classifier *)

Section StreamFacts.
Import Py Logs Stream.

Lemma loop_body_names_le (f f' : frame) (raw_line : bytes) :
  loop_body f raw_line = Ok f' ->
  length (script_names f) <= 26 -> length (script_names f') <= 26.
Proof.
  unfold loop_body; destruct (decode raw_line) as [text|]; [|discriminate].
  intros [= <-] Hle; simpl.
  destruct (truthy (last_line f) && _ && (length (script_names f) <=? 25))
    eqn:E; [|exact Hle].
  apply andb_true_iff in E as [_ E]; apply Nat.leb_le in E.
  rewrite length_app; simpl; lia.
Qed.

Lemma loop_names_le (stdout : list bytes) :
  forall f, length (script_names f) <= 26 ->
            length (script_names (fst (loop f stdout))) <= 26.
Proof.
  induction stdout as [|raw_line rest IH]; intros f Hle; simpl; [exact Hle|].
  destruct (loop_body f raw_line) as [f'|e] eqn:E; [|exact Hle].
  apply IH; eapply loop_body_names_le; eauto.
Qed.

(** What the loop leaves in the widget, and how it ends. *)
Lemma loop_lines (stdout : list bytes) :
  forall f,
    lines (self (fst (loop f stdout)))
      = lines (self f) ++ map strip (decoded_prefix stdout)
    /\ snd (loop f stdout)
      = if all_decode stdout then None else Some UnicodeDecodeError.
Proof.
  induction stdout as [|raw_line rest IH]; intros f; simpl.
  - rewrite app_nil_r; auto.
  - unfold loop_body.
    destruct (decode raw_line) as [text|]; simpl.
    + destruct (IH {| self := write (self f) (strip text);
                      script_names :=
                        if truthy (last_line f)
                           && startswith (strip text) (u "Categories:")
                           && (length (script_names f) <=? 25)
                        then script_names f ++ [last_line f]
                        else script_names f;
                      last_line := strip text |}) as [H1 H2].
      rewrite H1, H2; simpl; rewrite <- app_assoc; auto.
    + rewrite app_nil_r; auto.
Qed.

Lemma loop_app (a c : list bytes) :
  forall f, loop f (a ++ c)
            = match loop f a with
              | (f', None) => loop f' c
              | (f', Some e) => (f', Some e)
              end.
Proof.
  induction a as [|raw_line a IH]; intros f; simpl; [reflexivity|].
  destruct (loop_body f raw_line) as [f'|e]; [apply IH | reflexivity].
Qed.

(** After lines that all decode, the lookback is the last line forwarded. *)
Lemma loop_last_line (pre : list bytes) :
  forall ts f, texts pre = Some ts ->
    snd (loop f pre) = None
    /\ last_line (fst (loop f pre)) = last (map strip ts) (last_line f).
Proof.
  induction pre as [|raw_line pre IH]; intros ts f; simpl.
  - intros [= <-]; auto.
  - unfold loop_body.
    destruct (decode raw_line) as [text|]; [|discriminate].
    destruct (texts pre) as [ts'|] eqn:E; [|discriminate].
    intros [= <-].
    match goal with |- context [loop ?g pre] =>
      destruct (IH ts' g eq_refl) as [H1 H2] end.
    split; [exact H1|].
    rewrite H2; simpl map; rewrite last_cons; reflexivity.
Qed.

End StreamFacts.

Section StreamClaims.
Import Py Logs Stream.

Lemma names_any_widget (self0 : RichLog) (stdout : list bytes) (rc : Z) :
  snd (scripts_stream_process self0 stdout rc) = names_of stdout.
Proof.
  unfold names_of, scripts_stream_process.
  set (f0 := {| self := self0; script_names := []; last_line := [] |}).
  set (g0 := {| self := cleared; script_names := []; last_line := [] |}).
  assert (H : forall f g,
             script_names f = script_names g -> last_line f = last_line g ->
             snd (loop f stdout) = snd (loop g stdout)
             /\ script_names (fst (loop f stdout))
                = script_names (fst (loop g stdout))).
  { induction stdout as [|raw_line rest IH]; intros f g Hn Hl; simpl; auto.
    unfold loop_body; destruct (decode raw_line) as [text|]; simpl; auto.
    apply IH; simpl; [rewrite Hn, Hl|]; reflexivity. }
  destruct (H f0 g0 eq_refl eq_refl) as [H1 H2].
  destruct (loop f0 stdout) as [f [e|]], (loop g0 stdout) as [g [e'|]];
    simpl in *; congruence.
Qed.

(** C2.  The guard of the loop is [len(script_names) <= 25], which still
    holds when 25 names have been collected: no run returns more than 26
    names, and thirty header pairs with distinct names return the first
    26 of them, not 25. *)
Theorem collected_names_reach_26 :
  (forall self0 stdout returncode,
      match snd (scripts_stream_process self0 stdout returncode) with
      | Ok names => length names <= 26
      | Raise _ => True
      end)
  /\ names_of (header_pairs 30) = Ok (map script_name (seq 1 26))
  /\ length (map script_name (seq 1 26)) = 26.
Proof.
  split; [|split; vm_compute; reflexivity].
  intros self0 stdout returncode; unfold scripts_stream_process.
  set (f0 := {| self := self0; script_names := []; last_line := [] |}).
  pose proof (@loop_names_le stdout f0) as H.
  destruct (loop f0 stdout) as [f [e|]]; simpl in *; [exact I|].
  apply H; lia.
Qed.

(** C4, as stated, fails: a line printed with leading blanks reaches the
    sink without them. *)
Lemma indented_line_not_verbatim :
  ~ forwarded_verbatim indented_listing (sink_of indented_listing).
Proof.
  intros [ts [Hts Hsink]].
  vm_compute in Hts; injection Hts as <-.
  vm_compute in Hsink; discriminate Hsink.
Qed.

(** C4, amended.  The sink receives, in arrival order, every line with
    its leading and trailing white space removed (the line feed
    included), up to the first line that is not UTF-8; when every line
    decodes, the completion marker follows. *)
Theorem forwarded_lines_are_stripped :
  forall self0 stdout returncode,
    lines (fst (scripts_stream_process self0 stdout returncode))
    = lines self0 ++ map strip (decoded_prefix stdout)
        ++ (if all_decode stdout then [completion returncode] else []).
Proof.
  intros self0 stdout returncode; unfold scripts_stream_process.
  set (f0 := {| self := self0; script_names := []; last_line := [] |}).
  destruct (loop_lines stdout f0) as [H1 H2].
  destruct (loop f0 stdout) as [f [e|]]; simpl in *;
    destruct (all_decode stdout); try discriminate;
    rewrite H1; [rewrite app_nil_r | rewrite <- app_assoc]; reflexivity.
Qed.

(** C5, as stated, fails twice.  A marker line printed with leading
    blanks does not begin with the marker, yet the line before it is
    collected.  And with 25 names collected, the next header is still
    collected. *)
Lemma rule_as_stated_fails :
  ~ rule_as_stated [b "http-title" ++ [bLF]]
                   (b "  Categories: default discovery safe" ++ [bLF])
  /\ ~ rule_as_stated (header_pairs 25 ++ [b "script26" ++ [bLF]])
                      (b "Categories: safe" ++ [bLF]).
Proof.
  split; intros H.
  - specialize (H [u "http-title" ++ [LF]]
                  (u "  Categories: default discovery safe" ++ [LF])
                  [] eq_refl eq_refl eq_refl).
    vm_compute in H; discriminate H.
  - specialize (H (map (fun t => t ++ [LF])
                       (flat_map (fun k => [script_name k;
                                            u "Categories: safe"])
                                 (seq 1 25) ++ [u "script26"]))
                  (u "Categories: safe" ++ [LF])
                  (map script_name (seq 1 25))).
    vm_compute in H.
    specialize (H eq_refl eq_refl eq_refl); discriminate H.
Qed.

(** C5, amended.  While fewer than 25 names have been collected, a line
    adds a name exactly when the line forwarded before it is not empty
    and the line, with its surrounding white space removed, begins with
    [Categories:]; the name added is the line forwarded before.  A first
    line adds nothing, and alpha, Categories: x, beta, Categories: y
    gives alpha and beta. *)
Theorem header_rule_below_cap :
  (forall pre raw_line ts text names,
      texts pre = Some ts -> decode raw_line = Some text ->
      names_of pre = Ok names -> length names < cap ->
      let P := last (map strip ts) [] in
      names_of (pre ++ [raw_line])
      = Ok (if truthy P && startswith (strip text) (u "Categories:")
            then names ++ [P] else names))
  /\ (forall raw_line,
         names_of [raw_line] = Ok []
         \/ names_of [raw_line] = Raise UnicodeDecodeError)
  /\ names_of alpha_beta = Ok [u "alpha"; u "beta"].
Proof.
  split; [|split; [|vm_compute; reflexivity]].
  - intros pre raw_line ts text names Hts Htext Hnames Hcap P.
    unfold names_of, scripts_stream_process in *.
    set (f0 := {| self := cleared; script_names := []; last_line := [] |})
      in *.
    rewrite loop_app.
    destruct (loop_last_line pre f0 Hts) as [Hend Hlast].
    destruct (loop f0 pre) as [f [e|]]; simpl in Hend; [discriminate|].
    simpl in Hnames, Hlast; injection Hnames as Hnames.
    simpl; unfold loop_body; rewrite Htext; simpl.
    rewrite Hlast, Hnames; fold P.
    replace (length names <=? 25) with true
      by (symmetry; apply Nat.leb_le; unfold cap in Hcap; lia).
    rewrite andb_true_r; reflexivity.
  - intros raw_line; unfold names_of, scripts_stream_process; simpl.
    unfold loop_body; destruct (decode raw_line); simpl; auto.
Qed.

(** The rule at work: after alpha, the line Categories: x collects alpha. *)
Lemma header_rule_below_cap_witness :
  names_of ([b "alpha"] ++ [b "Categories: x"]) = Ok ([] ++ [u "alpha"]).
Proof.
  apply (proj1 header_rule_below_cap [b "alpha"] (b "Categories: x")
               [u "alpha"] (u "Categories: x") []);
    [reflexivity | reflexivity | reflexivity | unfold cap; simpl; lia].
Defined.

End StreamClaims.

(** ** [sorted]: a stable ascending sort *)

Section SortedFacts.
Import Py Report.
Variable A : Type.

#[local] Abbreviation key_is k := (fun p : Z * A => (fst p =? k)%Z).
#[local] Abbreviation le_key := (fun p q : Z * A => (fst p <= fst q)%Z).

Lemma insert_perm (k : Z) (x : A) (l : list (Z * A)) :
  Permutation ((k, x) :: l) (insert k x l).
Proof.
  induction l as [|[k' y] l IH]; simpl; [reflexivity|].
  destruct (k <=? k')%Z; [reflexivity|].
  rewrite perm_swap; apply perm_skip, IH.
Qed.

Lemma sort_keyed_perm (l : list (Z * A)) : Permutation l (sort_keyed l).
Proof.
  induction l as [|[k x] l IH]; simpl; [reflexivity|].
  rewrite <- insert_perm; apply perm_skip, IH.
Qed.

Lemma insert_sorted (k : Z) (x : A) (l : list (Z * A)) :
  StronglySorted le_key l -> StronglySorted le_key (insert k x l).
Proof.
  induction 1 as [|[k' y] l Hl IH Hall]; simpl.
  - repeat constructor.
  - destruct (k <=? k')%Z eqn:E.
    + apply Z.leb_le in E.
      constructor; [constructor; assumption|].
      constructor; [exact E|].
      eapply Forall_impl; [|exact Hall]; simpl; intros; lia.
    + apply Z.leb_gt in E.
      constructor; [exact IH|].
      apply (Permutation_Forall (insert_perm k x l)).
      constructor; [simpl; lia | exact Hall].
Qed.

Lemma sort_keyed_sorted (l : list (Z * A)) :
  StronglySorted le_key (sort_keyed l).
Proof.
  induction l as [|[k x] l IH]; simpl; [constructor|].
  apply insert_sorted, IH.
Qed.

(** Insertion goes past smaller keys only, so it keeps the order among
    the elements of any one key. *)
Lemma insert_filter (j k : Z) (x : A) (l : list (Z * A)) :
  filter (key_is j) (insert k x l) = filter (key_is j) ((k, x) :: l).
Proof.
  induction l as [|[k' y] l IH]; [reflexivity|].
  simpl insert; destruct (k <=? k')%Z eqn:E; [reflexivity|].
  apply Z.leb_gt in E.
  change (filter (key_is j) ((k', y) :: insert k x l))
    with (if (k' =? j)%Z then (k', y) :: filter (key_is j) (insert k x l)
          else filter (key_is j) (insert k x l)).
  rewrite IH; simpl.
  destruct (k' =? j)%Z eqn:E1, (k =? j)%Z eqn:E2; try reflexivity.
  apply Z.eqb_eq in E1, E2; lia.
Qed.

Lemma sort_keyed_filter (j : Z) (l : list (Z * A)) :
  filter (key_is j) (sort_keyed l) = filter (key_is j) l.
Proof.
  induction l as [|[k x] l IH]; [reflexivity|].
  simpl sort_keyed; rewrite insert_filter; simpl; rewrite IH; reflexivity.
Qed.

Variable num : A -> Z.

#[local] Abbreviation keyed := (fun p : Z * A => fst p = num (snd p)).

Lemma keyed_sorted (m : list (Z * A)) :
  Forall keyed m -> StronglySorted le_key m ->
  StronglySorted (fun x y => (num x <= num y)%Z) (map snd m).
Proof.
  intros Hk; induction 1 as [|p m Hm IH Hall]; simpl; constructor.
  - apply IH; inversion Hk; assumption.
  - inversion Hk as [|? ? Hp Hk']; subst.
    rewrite Forall_map, Forall_forall in *.
    intros q Hq; rewrite <- Hp, <- (Hk' q Hq); apply Hall, Hq.
Qed.

Lemma keyed_filter (j : Z) (m : list (Z * A)) :
  Forall keyed m ->
  filter (fun x => (num x =? j)%Z) (map snd m)
  = map snd (filter (key_is j) m).
Proof.
  induction 1 as [|p m Hp Hm IH]; simpl; [reflexivity|].
  rewrite <- Hp, IH; destruct (fst p =? j)%Z; reflexivity.
Qed.

Lemma combine_keys (l : list A) :
  Forall keyed (combine (map num l) l)
  /\ map snd (combine (map num l) l) = l.
Proof.
  induction l as [|x l [IH1 IH2]]; simpl; split; auto.
  rewrite IH2; reflexivity.
Qed.

Lemma for_each_Ok {B} (f : A -> result B) (g : A -> B) (l : list A) :
  Forall (fun x => f x = Ok (g x)) l -> for_each f l = Ok (map g l).
Proof.
  induction 1 as [|x l Hx Hl IH]; simpl; [reflexivity|].
  rewrite Hx, IH; reflexivity.
Qed.

Lemma for_each_Raise {B} (f : A -> result B) (e : exn) (l : list A) :
  Forall (fun x => forall e', f x = Raise e' -> e' = e) l ->
  Exists (fun x => exists e', f x = Raise e') l ->
  for_each f l = Raise e.
Proof.
  induction 1 as [|x l Hx Hl IH]; intros Hex; [inversion Hex|].
  simpl; destruct (f x) as [y|e'] eqn:E; simpl.
  - inversion Hex as [? ? [e' He']|? ? Hex']; subst; [congruence|].
    rewrite (IH Hex'); reflexivity.
  - rewrite (Hx e' eq_refl); reflexivity.
Qed.

(** [sorted] on keys that can all be computed. *)
Lemma sorted_ascending_stable (key : A -> result Z) (l : list A) :
  Forall (fun x => key x = Ok (num x)) l ->
  exists l', sorted key l = Ok l' /\ ascending_stable num l l'.
Proof.
  intros Hkey; unfold sorted; rewrite (for_each_Ok _ _ Hkey); simpl.
  destruct (combine_keys l) as [Hk Hsnd].
  set (m := combine (map num l) l) in *.
  assert (Hk' : Forall keyed (sort_keyed m))
    by (apply (Permutation_Forall (sort_keyed_perm m)), Hk).
  eexists; split; [reflexivity|]; repeat split.
  - rewrite <- Hsnd at 1; apply Permutation_map, sort_keyed_perm.
  - apply keyed_sorted; [exact Hk' | apply sort_keyed_sorted].
  - intros k; rewrite (keyed_filter k Hk'), sort_keyed_filter,
      <- (keyed_filter k Hk), Hsnd; reflexivity.
Qed.

End SortedFacts.

(** ** The parser *)

Section ParserFacts.
Import Py NmapXMLParser Report Documents.

(** A loop whose turns succeed or raise [e] as [ok] says. *)
Lemma for_each_decided {A B} (f : A -> result B) (ok : A -> bool) (e : exn)
    (l : list A) :
  (forall x, if ok x then exists y, f x = Ok y else f x = Raise e) ->
  if forallb ok l
  then exists ys, for_each f l = Ok ys /\ length ys = length l
  else for_each f l = Raise e.
Proof.
  intros Hf; induction l as [|x l IH]; simpl; [eauto|].
  specialize (Hf x); destruct (ok x); simpl.
  - destruct Hf as [y ->]; simpl.
    destruct (forallb ok l).
    + destruct IH as [ys [-> Hlen]]; simpl.
      exists (y :: ys); simpl; rewrite Hlen; auto.
    + rewrite IH; reflexivity.
  - rewrite Hf; reflexivity.
Qed.

Lemma for_each_Forall {A B} (f : A -> result B) (P : B -> Prop)
    (l : list A) (ys : list B) :
  (forall x y, f x = Ok y -> P y) -> for_each f l = Ok ys -> Forall P ys.
Proof.
  intros Hf; revert ys; induction l as [|x l IH]; simpl; intros ys H.
  - injection H as <-; constructor.
  - apply bind_Ok in H as [y [Hy H]].
    apply bind_Ok in H as [ys' [Hys H]].
    injection H as <-; constructor; eauto.
Qed.

Lemma counted_step (l : list port_info) (s : stats) (p : port_info) :
  counted l s -> counted (l ++ [p]) (count_state s (state p)).
Proof.
  intros (Hsum & Ho & Hc & Hf); unfold counted, count_state.
  rewrite !filter_app, !length_app; simpl.
  destruct (str_eqb (state p) (u "open")) eqn:Eo.
  { apply str_eqb_eq in Eo; rewrite Eo; simpl; lia. }
  destruct (str_eqb (state p) (u "closed")) eqn:Ec.
  { apply str_eqb_eq in Ec; rewrite Ec; simpl; lia. }
  destruct (str_eqb (state p) (u "filtered")) eqn:Ef; simpl; lia.
Qed.

Lemma parse_ports_counted (port_elems : list ET.Element) :
  forall acc, counted (fst acc) (snd acc) ->
              counted (fst (parse_ports port_elems acc))
                      (snd (parse_ports port_elems acc)).
Proof.
  induction port_elems as [|port rest IH]; intros acc H; simpl; [exact H|].
  apply IH; simpl; apply counted_step, H.
Qed.

Lemma _parse_host_counted (host_elem : ET.Element) (h : host_info) :
  _parse_host host_elem = Ok h -> counted (ports h) (port_stats h).
Proof.
  unfold _parse_host; intros H.
  apply bind_Ok in H as [[[l s] extra] [Hports H]].
  injection H as <-; simpl.
  destruct (ET.find host_elem "ports") as [ports_elem|].
  - apply bind_Ok in Hports as [extras [_ Hports]].
    injection Hports as Hports _.
    pose proof (parse_ports_counted (ET.findall ports_elem "port")
                  ([], zero_stats)) as Hc.
    rewrite Hports in Hc; apply Hc; repeat split.
  - injection Hports as <- <- _; repeat split.
Qed.

Lemma parse_ports_map (port_elems : list ET.Element) :
  forall acc, fst (parse_ports port_elems acc)
              = fst acc ++ map _parse_port port_elems.
Proof.
  induction port_elems as [|port rest IH]; intros acc; simpl.
  - rewrite app_nil_r; reflexivity.
  - rewrite IH; simpl; rewrite <- app_assoc; reflexivity.
Qed.

Lemma for_each_Forall2 {A B} (f : A -> result B) (l : list A) :
  forall ys, for_each f l = Ok ys -> Forall2 (fun x y => f x = Ok y) l ys.
Proof.
  induction l as [|x l IH]; simpl; intros ys H.
  - injection H as <-; constructor.
  - apply bind_Ok in H as [y [Hy H]].
    apply bind_Ok in H as [ys' [Hys H]].
    injection H as <-; constructor; auto.
Qed.

Lemma for_each_last {A B} (f : A -> result B) (l : list A) :
  forall ys,
    for_each f l = Ok ys ->
    match List.last (map Some l) None with
    | Some x => exists y, f x = Ok y /\ List.last (map Some ys) None = Some y
    | None => ys = []
    end.
Proof.
  induction l as [|x l IH]; simpl map; intros ys H.
  - simpl in H; injection H as <-; reflexivity.
  - simpl in H.
    apply bind_Ok in H as [y [Hy H]].
    apply bind_Ok in H as [ys' [Hys H]].
    injection H as <-; specialize (IH ys' Hys).
    rewrite last_cons; simpl map; rewrite last_cons.
    destruct l as [|x' l].
    + simpl in *; subst ys'; eauto.
    + simpl map in IH; rewrite last_cons in IH.
      simpl map; rewrite last_cons.
      destruct (List.last (map Some l) (Some x')) as [z|] eqn:E.
      * destruct IH as [y' [Hz Hl]]; exists y'; split; [exact Hz|].
        destruct ys' as [|y0 ys']; [discriminate Hl|].
        simpl map in Hl |- *; rewrite last_cons in Hl |- *; exact Hl.
      * exfalso; clear - E; revert x' E.
        induction l as [|a l IHl]; intros x' E; [discriminate|].
        simpl map in E; rewrite last_cons in E; eapply IHl, E.
Qed.

Lemma Forall2_map_r {A B} (R : A -> B -> Prop) (f : A -> B) (l : list A) :
  (forall x, R x (f x)) -> Forall2 R l (map f l).
Proof. intros H; induction l; simpl; constructor; auto. Qed.

(** What the parser keeps of one element. *)
Lemma _parse_port_kept (port_elem : ET.Element) :
  port_kept port_elem (_parse_port port_elem).
Proof.
  split; [reflexivity|]; simpl.
  destruct (ET.find port_elem "service"); reflexivity.
Qed.

Lemma int_count_value (e : ET.Element) (n : Z) :
  int_count e = Ok n -> count_value e = Some n.
Proof.
  unfold int_count, count_value.
  destruct (ET.get_opt e "count") as [text|]; [|congruence].
  destruct (int text); [congruence | discriminate].
Qed.

Lemma parse_extraports_kept (e : ET.Element) (extra : extra_info) :
  parse_extraports e = Ok extra -> extra_kept e extra.
Proof.
  unfold parse_extraports; intros H.
  apply bind_Ok in H as [n [Hn H]].
  apply bind_Ok in H as [rs [Hrs H]].
  injection H as <-; split; simpl; [apply int_count_value, Hn|].
  apply for_each_Forall2 in Hrs.
  eapply Forall2_impl; [|exact Hrs]; simpl; intros r_elem r Hr.
  apply bind_Ok in Hr as [m [Hm Hr]]; injection Hr as <-; simpl.
  apply int_count_value, Hm.
Qed.

Lemma _parse_host_kept (host_elem : ET.Element) (h : host_info) :
  _parse_host host_elem = Ok h -> host_kept host_elem h.
Proof.
  unfold _parse_host; intros H.
  apply bind_Ok in H as [[[l s] extra] [Hports H]].
  injection H as <-; unfold host_kept; simpl.
  split; [|split].
  - destruct (ET.find host_elem "ports") as [ports_elem|].
    + apply bind_Ok in Hports as [extras [_ Hports]].
      injection Hports as Hports _.
      pose proof (parse_ports_map (ET.findall ports_elem "port")
                                  ([], zero_stats)) as Hm.
      rewrite Hports in Hm; simpl in Hm; rewrite Hm.
      apply Forall2_map_r, _parse_port_kept.
    + injection Hports as <- _ _; constructor.
  - destruct (ET.find host_elem "os") as [os_elem|]; [|constructor].
    apply Forall2_map_r; reflexivity.
  - destruct (ET.find host_elem "ports") as [ports_elem|].
    + apply bind_Ok in Hports as [extras [Hextras Hports]].
      injection Hports as _ <-.
      pose proof (for_each_Forall2 _ _ Hextras) as Hall.
      apply for_each_last in Hextras.
      destruct (List.last (map Some (ET.findall ports_elem "extraports"))
                          None) as [last_elem|].
      * destruct Hextras as [y [Hy Hl]]; exists y; split; [exact Hl|].
        apply parse_extraports_kept, Hy.
      * subst extras; reflexivity.
    + injection Hports as _ _ <-; reflexivity.
Qed.

Lemma int_count_decided (e : ET.Element) :
  if count_reads e then exists n, int_count e = Ok n
  else int_count e = Raise ValueError.
Proof.
  unfold count_reads, int_count.
  destruct (ET.get_opt e "count") as [text|]; [|eauto].
  destruct (int text); eauto.
Qed.

Lemma parse_extraports_decided (e : ET.Element) :
  if extraports_reads e then exists x, parse_extraports e = Ok x
  else parse_extraports e = Raise ValueError.
Proof.
  unfold extraports_reads, parse_extraports.
  pose proof (int_count_decided e) as Hc.
  destruct (count_reads e); simpl; [|rewrite Hc; reflexivity].
  destruct Hc as [n ->]; simpl.
  match goal with |- context [for_each ?f ?l] =>
    pose proof (@for_each_decided _ _ f count_reads ValueError l) as Hr end.
  destruct (forallb count_reads (ET.findall e "extrareasons")).
  - destruct Hr as [ys [-> _]]; simpl; eauto.
    intros x; pose proof (int_count_decided x) as Hx.
    destruct (count_reads x); [destruct Hx as [m ->]; simpl; eauto|].
    rewrite Hx; reflexivity.
  - rewrite Hr; [reflexivity|].
    intros x; pose proof (int_count_decided x) as Hx.
    destruct (count_reads x); [destruct Hx as [m ->]; simpl; eauto|].
    rewrite Hx; reflexivity.
Qed.

Lemma _parse_host_decided (host_elem : ET.Element) :
  if host_reads host_elem then exists h, _parse_host host_elem = Ok h
  else _parse_host host_elem = Raise ValueError.
Proof.
  unfold host_reads, _parse_host.
  destruct (ET.find host_elem "ports") as [ports_elem|]; simpl; [|eauto].
  pose proof (for_each_decided parse_extraports extraports_reads ValueError
                (ET.findall ports_elem "extraports")
                parse_extraports_decided) as Hr.
  destruct (forallb extraports_reads (ET.findall ports_elem "extraports")).
  - destruct Hr as [ys [-> _]]; simpl; eauto.
  - rewrite Hr; reflexivity.
Qed.

End ParserFacts.

Section ParserClaims.
Import Py NmapXMLParser Report Documents.

(** C6.  In every parsed model the four counters of a host add up to the
    number of its ports, each of the first three being the number of
    ports in that state; a host element with no [ports] element parses
    to no ports, zero counters and no condensed ports. *)
Theorem port_stats_count_the_ports :
  (forall xml_file_ d p,
      __init__ xml_file_ d = Ok p ->
      Forall (fun h =>
                let s := port_stats h in
                open s + closed s + filtered s + other s = length (ports h)
                /\ open s = length (ports_in_state h "open")
                /\ closed s = length (ports_in_state h "closed")
                /\ filtered s = length (ports_in_state h "filtered"))
             (hosts p))
  /\ (forall host_elem,
         ET.find host_elem "ports" = None ->
         exists h, _parse_host host_elem = Ok h
                   /\ ports h = [] /\ port_stats h = zero_stats
                   /\ extraports h = None).
Proof.
  split.
  - intros xml_file_ d p H; unfold __init__ in H.
    apply bind_Ok in H as [root_ [_ H]].
    apply bind_Ok in H as [hosts_ [Hhosts H]].
    injection H as <-; simpl.
    eapply for_each_Forall; [|exact Hhosts].
    intros host_elem h Hh; exact (_parse_host_counted _ Hh).
  - intros host_elem Hnone; unfold _parse_host; rewrite Hnone; simpl.
    eexists; repeat split.
Qed.

(** The counters of a scan with one open port, and a host element with
    an address and no [ports] element. *)
Lemma port_stats_count_the_ports_witness :
  (exists p,
      __init__ scan_xml port_80_open = Ok p
      /\ Forall (fun h =>
                   let s := port_stats h in
                   open s + closed s + filtered s + other s = length (ports h)
                   /\ open s = length (ports_in_state h "open")
                   /\ closed s = length (ports_in_state h "closed")
                   /\ filtered s = length (ports_in_state h "filtered"))
                (hosts p))
  /\ (exists h, _parse_host bare_host = Ok h
                /\ ports h = [] /\ port_stats h = zero_stats
                /\ extraports h = None).
Proof.
  split.
  - eexists; split; [vm_compute; reflexivity|].
    eapply (proj1 port_stats_count_the_ports scan_xml port_80_open).
    vm_compute; reflexivity.
  - apply (proj2 port_stats_count_the_ports bare_host); reflexivity.
Defined.

(** C3, as stated, fails: a well-formed document whose condensed ports
    carry a count that is not a number makes the parser raise. *)
Lemma bad_count_raises : ~ parses_unless_malformed bad_count.
Proof.
  intros H; destruct (H scan_xml) as [p Hp].
  vm_compute in Hp; discriminate Hp.
Qed.

(** C3, amended.  Whatever [ET.parse] raises comes out unchanged, the
    parser having no handler: [OSError] for a file that cannot be
    opened, [ParseError] for markup that is not well formed,
    [LookupError] and [ValueError] for a declared encoding that is
    unknown or multi-byte.  On a document with a root
    the parser builds a model exactly when every [count] attribute it
    converts reads as an integer, and raises [ValueError] otherwise.
    The model has one host for each [host] element, and nothing else is
    converted or refused: a port keeps the text of its [portid] (or
    [unknown]) and of its service's [conf] (or [0]), an OS match the
    text of its [accuracy] (or [0]), and the condensed ports that are
    kept hold the integer values of their counts (0 for none). *)
Theorem parse_outcomes :
  forall xml_file_,
    __init__ xml_file_ ET.Unreadable = Raise OSError
    /\ __init__ xml_file_ ET.NotWellFormed = Raise ParseError
    /\ __init__ xml_file_ ET.UnknownEncoding = Raise LookupError
    /\ __init__ xml_file_ ET.MultiByteEncoding = Raise ValueError
    /\ (forall d e, ET.parse d = Raise e -> __init__ xml_file_ d = Raise e)
    /\ (forall root_,
           counts_read root_ = true ->
           exists hosts_,
             __init__ xml_file_ (ET.WellFormed root_)
             = Ok {| xml_file := xml_file_; root := root_; hosts := hosts_ |}
             /\ length hosts_ = length (ET.findall root_ "host")
             /\ Forall2 host_kept (ET.findall root_ "host") hosts_)
    /\ (forall root_,
           counts_read root_ = false ->
           __init__ xml_file_ (ET.WellFormed root_) = Raise ValueError)
    /\ (forall port_elem,
           portid (_parse_port port_elem)
           = match ET.get_opt port_elem "portid" with
             | Some text => text
             | None => u "unknown"
             end).
Proof.
  intros xml_file_.
  do 4 (split; [reflexivity|]).
  split; [intros d e Hd; unfold __init__; rewrite Hd; reflexivity|].
  assert (H : forall root_,
             if counts_read root_
             then exists ys, parse_xml root_ = Ok ys
                             /\ length ys = length (ET.findall root_ "host")
             else parse_xml root_ = Raise ValueError).
  { intros root_; unfold counts_read, parse_xml.
    apply for_each_decided, _parse_host_decided. }
  split; [|split; [|reflexivity]].
  - intros root_ Hr; specialize (H root_); rewrite Hr in H.
    destruct H as [ys [Hys Hlen]]; exists ys.
    split; [|split; [exact Hlen|]].
    + unfold __init__; simpl; rewrite Hys; reflexivity.
    + unfold parse_xml in Hys; apply for_each_Forall2 in Hys.
      eapply Forall2_impl; [|exact Hys].
      exact _parse_host_kept.
  - intros root_ Hr; specialize (H root_); rewrite Hr in H.
    unfold __init__; simpl; rewrite H; reflexivity.
Qed.

(** A scan of two hosts with a port without [portid], a port numbered
    [http], an accuracy that is no number and counts that are missing,
    ASCII and Arabic-Indic; and a scan with a count that is a word. *)
Lemma parse_outcomes_witness :
  (exists hosts_,
      __init__ scan_xml (ET.WellFormed mixed_scan_root)
      = Ok {| xml_file := scan_xml; root := mixed_scan_root;
              hosts := hosts_ |}
      /\ length hosts_ = length (ET.findall mixed_scan_root "host")
      /\ Forall2 host_kept (ET.findall mixed_scan_root "host") hosts_)
  /\ __init__ scan_xml (ET.WellFormed bad_count_root) = Raise ValueError.
Proof.
  destruct (parse_outcomes scan_xml) as (_ & _ & _ & _ & _ & Hok & Hbad & _).
  split.
  - apply Hok; vm_compute; reflexivity.
  - apply Hbad; vm_compute; reflexivity.
Defined.

End ParserClaims.

(** ** The renderer *)

Section RenderFacts.
Import Py NmapXMLParser Report Documents.

Lemma port_key_numeric (p : port_info) :
  numeric p -> port_key p = Ok (port_number p).
Proof.
  unfold numeric, port_key, port_number.
  destruct (int (portid p)); [reflexivity | congruence].
Qed.

(** The renderer selects the ports of a state. *)
Lemma ports_in_state_spec (host : host_info) (st : string) :
  ports_in_state host st = ports_with_state host st.
Proof.
  unfold ports_in_state, ports_with_state; apply filter_ext; intros p.
  destruct (list_eq_dec N.eq_dec (state p) (u st)) as [E | E].
  - apply str_eqb_eq, E.
  - destruct (str_eqb (state p) (u st)) eqn:Eb; [|reflexivity].
    apply str_eqb_eq in Eb; contradiction.
Qed.

Lemma numeric_dec (l : list port_info) :
  Forall numeric l \/ Exists (fun p => int (portid p) = None) l.
Proof.
  induction l as [|p l [IH|IH]]; auto.
  unfold numeric at 1; destruct (int (portid p)) eqn:E.
  - left; constructor; [unfold numeric; congruence | exact IH].
  - right; constructor; exact E.
Qed.

(** The two outcomes of sorting a list of ports by port number. *)
Lemma sorted_ports_numeric (l : list port_info) :
  Forall numeric l ->
  exists l', sorted port_key l = Ok l'
             /\ ascending_stable port_number l l'.
Proof.
  intros H; apply sorted_ascending_stable.
  eapply Forall_impl; [|exact H]; exact port_key_numeric.
Qed.

Lemma sorted_ports_raise (l : list port_info) :
  Exists (fun p => int (portid p) = None) l ->
  sorted port_key l = Raise ValueError.
Proof.
  intros H; unfold sorted.
  rewrite (@for_each_Raise _ _ port_key ValueError l); [reflexivity| |].
  - apply Forall_forall; intros p _ e; unfold port_key.
    destruct (int (portid p)); [discriminate | congruence].
  - eapply Exists_impl; [|exact H]; simpl; intros p Hp.
    unfold port_key; rewrite Hp; eauto.
Qed.

Lemma sorted_ports_outcome (l : list port_info) :
  (exists l', sorted port_key l = Ok l') \/ sorted port_key l = Raise ValueError.
Proof.
  destruct (numeric_dec l) as [H|H].
  - destruct (sorted_ports_numeric H) as [l' [H' _]]; eauto.
  - right; apply sorted_ports_raise, H.
Qed.

Lemma ascending_stable_length {A} (key : A -> Z) (l l' : list A) :
  ascending_stable key l l' -> length l' = length l.
Proof. intros [H _]; symmetry; apply Permutation_length, H. Qed.

Lemma ascending_stable_nonempty {A} (key : A -> Z) (l l' : list A) :
  ascending_stable key l l' -> nonempty l' = nonempty l.
Proof.
  intros H; apply ascending_stable_length in H.
  destruct l, l'; simpl in *; congruence.
Qed.

Lemma Exists_nonempty {A} (P : A -> Prop) (l : list A) :
  Exists P l -> nonempty l = true.
Proof. destruct 1; reflexivity. Qed.

(** A host is rendered from its blocks. *)
Lemma _format_host_blocks (host : host_info) (host_num : nat)
    (open_ filtered_ closed_ : list str) :
  open_ports_lines host = Ok open_ ->
  filtered_ports_lines host = Ok filtered_ ->
  closed_ports_lines host = Ok closed_ ->
  _format_host host host_num
  = Ok (before_listings host host_num ++ open_ ++ filtered_ ++ closed_
          ++ after_listings host).
Proof.
  intros Ho Hf Hc; unfold _format_host, before_listings, after_listings.
  rewrite Ho, Hf, Hc; simpl bind; cbv zeta.
  f_equal; rewrite <- !app_assoc; reflexivity.
Qed.

Ltac listing_outcome l :=
  unfold lines_or_ValueError;
  destruct (sorted_ports_outcome l) as [[? ->] | ->]; simpl; eauto.

Lemma open_ports_lines_outcome (host : host_info) :
  lines_or_ValueError (open_ports_lines host).
Proof.
  unfold open_ports_lines.
  destruct (nonempty (ports_in_state host "open"));
    [listing_outcome (ports_in_state host "open") | left; eauto].
Qed.

Lemma filtered_ports_lines_outcome (host : host_info) :
  lines_or_ValueError (filtered_ports_lines host).
Proof.
  unfold filtered_ports_lines.
  destruct (nonempty (ports_in_state host "filtered"));
    [listing_outcome (ports_in_state host "filtered") | left; eauto].
Qed.

Lemma closed_ports_lines_outcome (host : host_info) :
  lines_or_ValueError (closed_ports_lines host).
Proof.
  unfold closed_ports_lines.
  destruct (nonempty (ports_in_state host "closed")
            && (length (ports_in_state host "closed") <=? 10));
    [listing_outcome (ports_in_state host "closed")|].
  destruct (nonempty (ports_in_state host "closed")); left; eauto.
Qed.

(** Whatever a host holds, rendering it gives lines or [ValueError]. *)
Lemma _format_host_outcome (host : host_info) (host_num : nat) :
  lines_or_ValueError (_format_host host host_num).
Proof.
  unfold _format_host.
  destruct (open_ports_lines_outcome host) as [[lo ->] | ->];
    [|right; reflexivity].
  destruct (filtered_ports_lines_outcome host) as [[lf ->] | ->];
    [|right; reflexivity].
  destruct (closed_ports_lines_outcome host) as [[lc ->] | ->];
    [left; simpl; eauto | right; reflexivity].
Qed.

(** The listings of ports that are all numbered. *)
Lemma open_ports_lines_numeric (host : host_info) :
  Forall numeric (ports_in_state host "open") ->
  exists open_sorted,
    ascending_stable port_number (ports_in_state host "open") open_sorted
    /\ open_ports_lines host
       = Ok (if nonempty open_sorted
             then open_header (length open_sorted)
                    :: map _format_port open_sorted
             else []).
Proof.
  intros H; destruct (sorted_ports_numeric H) as [l' [Hs Ha]].
  exists l'; split; [exact Ha|].
  unfold open_ports_lines; rewrite Hs.
  rewrite (ascending_stable_nonempty Ha), (ascending_stable_length Ha).
  destruct (nonempty (ports_in_state host "open")); reflexivity.
Qed.

Lemma filtered_ports_lines_numeric (host : host_info) :
  Forall numeric (ports_in_state host "filtered") ->
  exists filtered_sorted,
    ascending_stable port_number (ports_in_state host "filtered")
                     filtered_sorted
    /\ filtered_ports_lines host
       = Ok (if nonempty filtered_sorted
             then filtered_header (length filtered_sorted)
                    :: map _format_port (firstn 10 filtered_sorted)
                    ++ (if 10 <? length filtered_sorted
                        then [and_more (length filtered_sorted - 10)]
                        else [])
             else []).
Proof.
  intros H; destruct (sorted_ports_numeric H) as [l' [Hs Ha]].
  exists l'; split; [exact Ha|].
  unfold filtered_ports_lines; rewrite Hs.
  rewrite (ascending_stable_nonempty Ha), (ascending_stable_length Ha).
  destruct (nonempty (ports_in_state host "filtered")); reflexivity.
Qed.

Lemma closed_ports_lines_numeric (host : host_info) :
  let closed_ports := ports_in_state host "closed" in
  (length closed_ports <= 10 -> Forall numeric closed_ports) ->
  exists closed_,
    closed_ports_lines host = Ok closed_
    /\ (length closed_ports <= 10 ->
        exists closed_sorted,
          ascending_stable port_number closed_ports closed_sorted
          /\ closed_ = if nonempty closed_ports
                       then closed_header (length closed_ports)
                              :: map _format_port closed_sorted
                       else [])
    /\ (10 < length closed_ports ->
        closed_ = [closed_count_line (length closed_ports)]).
Proof.
  intros closed_ports H; unfold closed_ports_lines; fold closed_ports.
  destruct (length closed_ports <=? 10) eqn:E.
  - apply Nat.leb_le in E.
    destruct (sorted_ports_numeric (H E)) as [l' [Hs Ha]].
    fold closed_ports in Hs, Ha; rewrite Hs, andb_true_r.
    destruct (nonempty closed_ports) eqn:En; simpl;
      (eexists; split; [reflexivity|]; split; [|lia]);
      intros _; exists l'; split; auto.
  - apply Nat.leb_gt in E; rewrite andb_false_r.
    assert (En : nonempty closed_ports = true)
      by (destruct closed_ports; simpl in *; [lia | reflexivity]).
    rewrite En; eexists; split; [reflexivity|]; split; [lia | reflexivity].
Qed.

(** The listing that finds a port without a number raises. *)
Lemma open_ports_lines_raise (host : host_info) :
  Exists (fun p => int (portid p) = None) (ports_in_state host "open") ->
  open_ports_lines host = Raise ValueError.
Proof.
  intros H; unfold open_ports_lines.
  rewrite (Exists_nonempty H), (sorted_ports_raise H); reflexivity.
Qed.

Lemma filtered_ports_lines_raise (host : host_info) :
  Exists (fun p => int (portid p) = None) (ports_in_state host "filtered") ->
  filtered_ports_lines host = Raise ValueError.
Proof.
  intros H; unfold filtered_ports_lines.
  rewrite (Exists_nonempty H), (sorted_ports_raise H); reflexivity.
Qed.

Lemma closed_ports_lines_raise (host : host_info) :
  Exists (fun p => int (portid p) = None) (ports_in_state host "closed") ->
  length (ports_in_state host "closed") <= 10 ->
  closed_ports_lines host = Raise ValueError.
Proof.
  intros H Hle; unfold closed_ports_lines.
  apply Nat.leb_le in Hle.
  rewrite (Exists_nonempty H), Hle, (sorted_ports_raise H); reflexivity.
Qed.

(** A report needs every host rendered. *)
Lemma format_hosts_outcome (hosts_ : list host_info) :
  forall i, lines_or_ValueError (format_hosts hosts_ i).
Proof.
  induction hosts_ as [|host rest IH]; intros i; simpl; [left; eauto|].
  destruct (_format_host_outcome host i) as [[ls ->] | ->];
    [|right; reflexivity].
  destruct (IH (S i)) as [[ls' ->] | ->]; [left; simpl; eauto|].
  right; reflexivity.
Qed.

Lemma format_hosts_raise (hosts_ : list host_info) (host : host_info) :
  In host hosts_ ->
  (forall i, _format_host host i = Raise ValueError) ->
  forall i, format_hosts hosts_ i = Raise ValueError.
Proof.
  intros Hin Hraise; induction hosts_ as [|h rest IH]; intros i;
    [destruct Hin|]; simpl.
  destruct Hin as [-> | Hin]; [rewrite Hraise; reflexivity|].
  destruct (_format_host_outcome h i) as [[ls ->] | ->];
    [|reflexivity].
  simpl; rewrite (IH Hin); reflexivity.
Qed.

Lemma _build_report_raise (self : t) (e : exn) :
  format_hosts (hosts self) 1 = Raise e ->
  forall now, _build_report self now = Raise e.
Proof.
  intros H now; unfold _build_report, report_lines; rewrite H; reflexivity.
Qed.

End RenderFacts.

Section RenderClaims.
Import Py NmapXMLParser Report Documents.






(** C10.  A document whose one port has no [portid], or one that is
    not a number, parses: the port is stored with the text [unknown], or
    with the text of the attribute.  Rendering that model raises
    [ValueError] when the port is open, filtered or closed, because the
    listing of its state sorts by [int(portid)]. *)
Theorem unnumbered_port_breaks_rendering :
  parses_but_does_not_render (unnumbered "open") "open" "unknown"
  /\ parses_but_does_not_render (unnumbered "filtered") "filtered" "unknown"
  /\ parses_but_does_not_render (unnumbered "closed") "closed" "unknown"
  /\ parses_but_does_not_render (misnumbered "open") "open" "http"
  /\ parses_but_does_not_render (misnumbered "filtered") "filtered" "http"
  /\ parses_but_does_not_render (misnumbered "closed") "closed" "http".
Proof.
  repeat split;
    (eexists _, _, _;
     split; [vm_compute; reflexivity|];
     split; [reflexivity|];
     split; [reflexivity|];
     split; [reflexivity|];
     split; [reflexivity|];
     split; [vm_compute; reflexivity|];
     apply _build_report_raise; vm_compute; reflexivity).
Qed.

(** The cause, for any model: a host with a port that has no number and
    is listed (open, filtered, or closed among at most 10) cannot be
    rendered, and neither can the report. *)
Lemma listed_port_without_number_raises (self : t) (host : host_info)
    (p : port_info) :
  In host (hosts self) -> In p (ports host) -> int (portid p) = None ->
  state p = u "open" \/ state p = u "filtered"
  \/ (state p = u "closed"
      /\ length (ports_in_state host "closed") <= 10) ->
  forall now, _build_report self now = Raise ValueError.
Proof.
  intros Hhost Hp Hnone Hstate.
  apply _build_report_raise.
  apply (@format_hosts_raise (hosts self) host Hhost); intros i.
  assert (Hex : forall st, state p = u st ->
                Exists (fun q => int (portid q) = None)
                       (ports_in_state host st)).
  { intros st Hst; apply Exists_exists; exists p; split; [|exact Hnone].
    apply filter_In; split; [exact Hp|].
    rewrite Hst; apply str_eqb_refl. }
  unfold _format_host.
  destruct (open_ports_lines_outcome host) as [[lo Ho] | Ho];
    rewrite Ho; [|reflexivity]; simpl.
  destruct (filtered_ports_lines_outcome host) as [[lf Hf] | Hf];
    rewrite Hf; [|reflexivity]; simpl.
  destruct Hstate as [Hs | [Hs | [Hs Hle]]].
  - rewrite (open_ports_lines_raise host (Hex _ Hs)) in Ho; discriminate.
  - rewrite (filtered_ports_lines_raise host (Hex _ Hs)) in Hf; discriminate.
  - rewrite (closed_ports_lines_raise host (Hex _ Hs) Hle); reflexivity.
Qed.

End RenderClaims.

Section ReportClaims.
Import Py NmapXMLParser Report Documents.

Lemma join_banner (a c d g now x : str) (rest : list str) :
  join [LF] (a :: c :: d :: (g ++ now) :: x :: rest)
  = join [LF] [a; c; d; g] ++ now ++ [LF] ++ join [LF] (x :: rest).
Proof.
  change (join [LF] (a :: c :: d :: (g ++ now) :: x :: rest))
    with (a ++ [LF] ++ c ++ [LF] ++ d ++ [LF] ++ (g ++ now) ++ [LF]
            ++ join [LF] (x :: rest)).
  change (join [LF] [a; c; d; g])
    with (a ++ [LF] ++ c ++ [LF] ++ d ++ [LF] ++ g).
  rewrite <- !app_assoc; reflexivity.
Qed.

(** The lines of a report: the clock shows in the fourth and nowhere
    else. *)
Lemma report_lines_shape (self : t) (host_lines : list str) :
  format_hosts (hosts self) 1 = Ok host_lines ->
  exists x rest,
    forall now,
      report_lines self now
      = Ok (times "=" 80 :: u "NMAP SCAN REPORT" :: times "=" 80
              :: (u "Generated: " ++ now) :: x :: rest).
Proof.
  intros H; unfold report_lines; rewrite H.
  eexists _, _; intros now; reflexivity.
Qed.

(** C1, as stated, fails: the same model rendered at noon and one second
    later gives two different texts. *)
Lemma clock_shows_in_report :
  __init__ scan_xml no_host = Ok no_host_parser
  /\ ~ renders_identically no_host_parser.
Proof.
  split; [reflexivity|].
  intros H; specialize (H noon noon_and_a_second).
  vm_compute in H; discriminate H.
Qed.

(** C1, amended.  Rendering is a function of the model and of the clock
    reading, and of nothing else.  Either the model cannot be rendered,
    whatever the clock says; or its report is the banner, the time stamp
    and a text fixed by the model, so that two renderings of the model
    are the same text exactly when the clock read the same second. *)
Theorem report_is_fixed_up_to_the_time_stamp :
  forall self,
    (exists e, forall now, _build_report self now = Raise e)
    \/ (exists rest,
          (forall now, _build_report self now = Ok (banner ++ now ++ rest))
          /\ (forall now1 now2,
                 _build_report self now1 = _build_report self now2
                 <-> now1 = now2)).
Proof.
  intros self.
  destruct (format_hosts (hosts self) 1) as [host_lines|e] eqn:E.
  - right; destruct (report_lines_shape self E) as (x & rest & Hshape).
    assert (Htext : forall now,
               _build_report self now
               = Ok (banner ++ now ++ [LF] ++ join [LF] (x :: rest))).
    { intros now; unfold _build_report; rewrite Hshape.
      unfold bind; cbv beta iota.
      rewrite join_banner; reflexivity. }
    set (tail := [LF] ++ join [LF] (x :: rest)) in Htext.
    exists tail; split; [exact Htext|].
    intros now1 now2; split; [|intros ->; reflexivity].
    rewrite !Htext; intros H.
    assert (H' : banner ++ now1 ++ tail = banner ++ now2 ++ tail)
      by congruence.
    apply app_inv_head in H'; apply app_inv_tail in H'; exact H'.
  - left; exists e; apply _build_report_raise, E.
Qed.

(** C9, as stated, fails: on the export path a failed write comes out as
    a plain [Exception] under the label of a parsing error, as a
    malformed document does; and [generate_report] with a destination
    that cannot be written gives its caller the error and no text. *)
Lemma failed_write_is_relabelled :
  ~ surfaces_io_failure
      (snd (ExportModal._export_parsed_xml scan_xml no_host out_txt noon
              read_only))
  /\ snd (ExportModal._export_parsed_xml scan_xml no_host out_txt noon
            read_only)
     = Raise (Exception_ (u "XML Parsing Error: ") OSError)
  /\ snd (ExportModal._export_parsed_xml scan_xml ET.NotWellFormed out_txt
            noon read_only)
     = Raise (Exception_ (u "XML Parsing Error: ") ParseError)
  /\ generate_report no_host_parser (Some out_txt) noon read_only
     = (read_only, Raise OSError).
Proof.
  repeat split; try (vm_compute; reflexivity).
  unfold surfaces_io_failure; vm_compute; discriminate.
Qed.

Lemma _build_report_outcome (self : t) (now : str) (e : exn) :
  _build_report self now = Raise e -> e = ValueError.
Proof.
  unfold _build_report, report_lines; intros H.
  destruct (format_hosts_outcome (hosts self) 1) as [[ls Hls] | Hraise].
  - rewrite Hls in H; discriminate H.
  - rewrite Hraise in H; injection H as <-; reflexivity.
Qed.

Lemma write_text_outcome (fs fs' : FS.filesystem) (path text : str)
    (e : exn) :
  FS.write_text fs path text = (fs', Raise e) -> e = OSError.
Proof.
  unfold FS.write_text; destruct (FS.stat fs path) as [[c|]|]; congruence.
Qed.

(** C9, amended.  When the destination cannot be opened for writing and
    the model renders, [generate_report] raises [OSError], returns no
    text and leaves the file system as it was.  [generate_report] raises
    nothing but [ValueError] (the model does not render) and what the
    write raises, so never the [ParseError] of a malformed document.
    The model is still there: at any later time [generate_report]
    without a destination returns the report, the same text but for its
    time stamp.  On the export path every failure (of the parser, of the
    renderer or of the write) is raised as a plain [Exception] whose
    message is [XML Parsing Error: ] and then the cause, so the failed
    write comes out under the same label as a malformed document. *)
Theorem failed_write_outcomes :
  forall self path now fs report,
    truthy path = true ->
    FS.stat fs path = Some FS.Denied ->
    _build_report self now = Ok report ->
    generate_report self (Some path) now fs = (fs, Raise OSError)
    /\ OSError <> ParseError
    /\ generate_report self None now fs = (fs, Ok report)
    /\ (forall xml_file_ d,
           __init__ xml_file_ d = Ok self ->
           ExportModal._export_parsed_xml xml_file_ d path now fs
           = (fs, Raise (Exception_ (u "XML Parsing Error: ") OSError)))
    /\ (forall xml_file_,
           ExportModal._export_parsed_xml xml_file_ ET.NotWellFormed path
             now fs
           = (fs, Raise (Exception_ (u "XML Parsing Error: ") ParseError)))
    /\ (forall any_model output_file later fs2 e,
           snd (generate_report any_model output_file later fs2) = Raise e ->
           e <> ParseError
           /\ ((e = ValueError
                /\ _build_report any_model later = Raise ValueError)
               \/ (exists out text,
                      output_file = Some out
                      /\ _build_report any_model later = Ok text
                      /\ snd (FS.write_text fs2 out text) = Raise e)))
    /\ (exists rest,
           report = banner ++ now ++ rest
           /\ forall later fs2,
                generate_report self None later fs2
                = (fs2, Ok (banner ++ later ++ rest)))
    /\ (forall xml_file_ d out later fs2,
           match ExportModal._export_parsed_xml xml_file_ d out later fs2 with
           | (_, Ok written) => written = out
           | (_, Raise e) =>
               exists cause,
                 e = Exception_ (u "XML Parsing Error: ") cause
                 /\ (__init__ xml_file_ d = Raise cause
                     \/ (exists p, __init__ xml_file_ d = Ok p
                                   /\ _build_report p later = Raise cause)
                     \/ (exists p text,
                            __init__ xml_file_ d = Ok p
                            /\ _build_report p later = Ok text
                            /\ snd (FS.write_text fs2 out text)
                               = Raise cause))
           end).
Proof.
  intros self path now fs report Hpath Hdenied Hreport.
  assert (Hwrite : forall text,
             FS.write_text fs path text = (fs, Raise OSError))
    by (intros text; unfold FS.write_text; rewrite Hdenied; reflexivity).
  split; [|split; [|split; [|split; [|split; [|split; [|split]]]]]].
  - unfold generate_report; rewrite Hreport, Hpath, Hwrite; reflexivity.
  - discriminate.
  - unfold generate_report; rewrite Hreport; reflexivity.
  - intros xml_file_ d Hinit; unfold ExportModal._export_parsed_xml.
    rewrite Hinit; unfold generate_report; rewrite Hreport, Hwrite.
    reflexivity.
  - reflexivity.
  - intros any_model output_file later fs2 e; unfold generate_report.
    destruct (_build_report any_model later) as [text|e'] eqn:Eb.
    + destruct output_file as [out|]; [|discriminate].
      destruct (truthy out); [|discriminate].
      destruct (FS.write_text fs2 out text) as [fs3 [[]|e']] eqn:Ew;
        [discriminate|].
      simpl; intros [= <-]; split.
      * rewrite (write_text_outcome _ _ _ Ew); discriminate.
      * right; exists out, text; rewrite Ew; auto.
    + simpl; intros [= <-].
      pose proof (_build_report_outcome _ _ Eb) as ->.
      split; [discriminate | left; auto].
  - destruct (format_hosts (hosts self) 1) as [host_lines|e] eqn:E.
    + destruct (report_lines_shape self E) as (x & rest & Hshape).
      assert (Htext : forall t,
                 _build_report self t
                 = Ok (banner ++ t ++ [LF] ++ join [LF] (x :: rest))).
      { intros t; unfold _build_report; rewrite Hshape.
        unfold bind; cbv beta iota.
        rewrite join_banner; reflexivity. }
      exists ([LF] ++ join [LF] (x :: rest)); split.
      * rewrite Htext in Hreport; congruence.
      * intros later fs2; unfold generate_report; rewrite Htext.
        reflexivity.
    + rewrite (_build_report_raise self E now) in Hreport; discriminate.
  - intros xml_file_ d out later fs2; unfold ExportModal._export_parsed_xml.
    destruct (__init__ xml_file_ d) as [p|e] eqn:Einit; [|eauto].
    unfold generate_report.
    destruct (_build_report p later) as [text|e] eqn:Eb; [|eauto 7].
    destruct (FS.write_text fs2 out text) as [fs3 [[]|e]] eqn:Ew;
      [reflexivity|].
    eexists; split; [reflexivity|]; right; right.
    exists p, text; rewrite Ew; auto.
Qed.

(** A report that cannot be written to [/root/out.txt]. *)
Lemma failed_write_outcomes_witness :
  generate_report no_host_parser (Some out_txt) noon read_only
  = (read_only, Raise OSError)
  /\ ExportModal._export_parsed_xml scan_xml no_host out_txt noon read_only
     = (read_only, Raise (Exception_ (u "XML Parsing Error: ") OSError))
  /\ exists rest,
       forall later fs2,
         generate_report no_host_parser None later fs2
         = (fs2, Ok (banner ++ later ++ rest)).
Proof.
  assert (Hreport : exists report,
             _build_report no_host_parser noon = Ok report)
    by (eexists; vm_compute; reflexivity).
  destruct Hreport as [report Hreport].
  destruct (failed_write_outcomes no_host_parser out_txt noon read_only
              eq_refl eq_refl Hreport)
    as (H1 & _ & _ & H2 & _ & _ & (rest & _ & H3) & _).
  split; [exact H1|]; split; [apply H2; reflexivity|].
  exists rest; exact H3.
Defined.

End ReportClaims.

(* ================================================================== *)
(** * Part III: further properties of the code                         *)
(* ================================================================== *)

(** ** The two coroutines of [core/logs.py] *)

Section StreamMore.
Import Py Logs Stream.

Lemma stream_loop_lines (stdout : list bytes) :
  forall self0,
    stream_loop self0 stdout
    = ({| lines := lines self0 ++ map strip (decoded_prefix stdout) |},
       if all_decode stdout then None else Some UnicodeDecodeError).
Proof.
  induction stdout as [|line rest IH]; intros [ls]; simpl.
  - rewrite app_nil_r; reflexivity.
  - destruct (decode line) as [text|]; simpl.
    + rewrite IH; simpl; rewrite <- app_assoc; reflexivity.
    + rewrite app_nil_r; reflexivity.
Qed.

(** X1.  [stream_process] writes every line of the output, stripped, in
    order, and then the line [Process finished with code N]; on the
    first line that is not UTF-8 it raises [UnicodeDecodeError], having
    written the lines before it and no closing line. *)
Theorem stream_process_forwards :
  forall self0 stdout returncode,
    stream_process self0 stdout returncode
    = if all_decode stdout
      then ({| lines := lines self0 ++ map strip (decoded_prefix stdout)
                          ++ [u "Process finished with code "
                                ++ str_of_Z returncode] |},
            Ok tt)
      else ({| lines := lines self0 ++ map strip (decoded_prefix stdout) |},
            Raise UnicodeDecodeError).
Proof.
  intros self0 stdout returncode; unfold stream_process.
  rewrite stream_loop_lines.
  destruct (all_decode stdout); [|reflexivity].
  unfold write; simpl; rewrite <- app_assoc; reflexivity.
Qed.

(** The loop computes the headers of what it has read, up to 26 of
    them. *)
Lemma loop_headers (stdout : list bytes) :
  forall f,
    length (script_names f) <= 26 ->
    all_decode stdout = true ->
    script_names (fst (loop f stdout))
    = firstn 26 (script_names f
                   ++ headers (last_line f)
                              (map strip (decoded_prefix stdout))).
Proof.
  remember 26 as n eqn:Hn.
  induction stdout as [|raw_line rest IH]; intros f Hle Hall; simpl.
  - rewrite app_nil_r, firstn_all2; [reflexivity | exact Hle].
  - simpl in Hall; unfold loop_body.
    destruct (decode raw_line) as [text|]; [|discriminate].
    simpl in *.
    match goal with |- context [loop ?g rest] => set (f' := g) end.
    assert (Hle' : length (script_names f') <= n).
    { unfold f'; simpl.
      destruct (truthy (last_line f) && _
                && (length (script_names f) <=? 25)) eqn:E; [|exact Hle].
      apply andb_true_iff in E as [_ E]; apply Nat.leb_le in E.
      rewrite length_app; simpl; lia. }
    rewrite (IH f' Hle' Hall); unfold f'; simpl; unfold marker.
    destruct (truthy (last_line f)
              && startswith (strip text) (u "Categories:"))
      eqn:Eq; simpl; [|reflexivity].
    destruct (length (script_names f) <=? 25) eqn:El.
    + rewrite <- app_assoc; reflexivity.
    + apply Nat.leb_gt in El.
      assert (Hlen : length (script_names f) = n) by lia.
      rewrite !firstn_app, Hlen, Nat.sub_diag; simpl.
      rewrite !app_nil_r; reflexivity.
Qed.

(** X2.  What [scripts_stream_process] returns: when every line is
    UTF-8, the first 26 header names of the stripped output, in order (a
    header name is a non-empty line directly followed by a line that
    begins with [Categories:]); otherwise it raises
    [UnicodeDecodeError] and returns no names at all. *)
Theorem names_are_the_first_26_headers :
  forall self0 stdout returncode,
    snd (scripts_stream_process self0 stdout returncode)
    = if all_decode stdout
      then Ok (firstn 26 (headers [] (map strip (decoded_prefix stdout))))
      else Raise UnicodeDecodeError.
Proof.
  intros self0 stdout returncode; unfold scripts_stream_process.
  set (f0 := {| self := self0; script_names := []; last_line := [] |}).
  destruct (loop_lines stdout f0) as [_ Hend].
  pose proof (@loop_headers stdout f0) as Hnames.
  destruct (loop f0 stdout) as [f [e|]]; simpl in *;
    destruct (all_decode stdout); try discriminate.
  - injection Hend as ->; reflexivity.
  - rewrite Hnames; [reflexivity | lia | reflexivity].
Qed.

Lemma In_firstn {A} (n : nat) (x : A) (l : list A) :
  In x (firstn n l) -> In x l.
Proof.
  intros H; rewrite <- (firstn_skipn n l); apply in_or_app; left; exact H.
Qed.

Lemma headers_In (name : str) (ls : list str) :
  forall prev,
    In name (headers prev ls) ->
    truthy name = true
    /\ exists i L,
         nth_error (prev :: ls) i = Some name
         /\ nth_error (prev :: ls) (S i) = Some L
         /\ startswith L marker = true.
Proof.
  induction ls as [|l rest IH]; intros prev Hin; [destruct Hin|].
  simpl in Hin; apply in_app_or in Hin as [Hin | Hin].
  - destruct (truthy prev && startswith l marker) eqn:E; [|destruct Hin].
    destruct Hin as [<- | []].
    apply andb_true_iff in E as [E1 E2].
    split; [exact E1|]; exists 0, l; auto.
  - destruct (IH l Hin) as (Ht & i & L & H1 & H2 & H3).
    split; [exact Ht|]; exists (S i), L; auto.
Qed.

(** X3.  Every name that [scripts_stream_process] returns is a non-empty
    line of the log, and the line written right after it begins with
    [Categories:]. *)
Theorem names_are_lines_before_a_marker :
  forall stdout returncode log names name,
    scripts_stream_process cleared stdout returncode = (log, Ok names) ->
    In name names ->
    truthy name = true
    /\ exists i L,
         nth_error (lines log) i = Some name
         /\ nth_error (lines log) (S i) = Some L
         /\ startswith L marker = true.
Proof.
  intros stdout returncode log names name Hrun Hin.
  set (f0 := {| self := cleared; script_names := []; last_line := [] |}).
  destruct (loop_lines stdout f0) as [Hlines Hend].
  assert (Hnames : all_decode stdout = true ->
                   In name (script_names (fst (loop f0 stdout))) ->
                   In name (headers [] (map strip (decoded_prefix stdout)))).
  { intros Hall H; rewrite (@loop_headers stdout f0) in H;
      [|simpl; lia|exact Hall].
    apply In_firstn in H; exact H. }
  unfold scripts_stream_process in Hrun; fold f0 in Hrun.
  destruct (loop f0 stdout) as [f [e|]]; [discriminate|].
  simpl in Hlines, Hend, Hnames, Hrun; injection Hrun as <- <-.
  destruct (all_decode stdout); [|discriminate].
  destruct (headers_In _ _ _ (Hnames eq_refl Hin))
    as (Ht & i & L & H1 & H2 & H3).
  split; [exact Ht|].
  destruct i as [|i]; [simpl in H1; injection H1 as <-; discriminate|].
  change (nth_error (map strip (decoded_prefix stdout)) i = Some name)
    in H1.
  change (nth_error (map strip (decoded_prefix stdout)) (S i) = Some L)
    in H2.
  exists i, L; simpl lines; rewrite Hlines.
  split; [|split; [|exact H3]];
    (rewrite nth_error_app1; [assumption|]);
    apply nth_error_Some; congruence.
Qed.

(** Two headers in a listing: both names come back. *)
Lemma names_are_lines_before_a_marker_witness :
  truthy (u "beta") = true
  /\ exists i L,
       nth_error (sink_of alpha_beta) i = Some (u "beta")
       /\ nth_error (sink_of alpha_beta) (S i) = Some L
       /\ startswith L marker = true.
Proof.
  apply (@names_are_lines_before_a_marker alpha_beta 0
           (fst (scripts_stream_process cleared alpha_beta 0))
           [u "alpha"; u "beta"] (u "beta"));
    [vm_compute; reflexivity | simpl; auto].
Defined.

End StreamMore.

(** ** More on the parser *)

Section ParserMore.
Import Py NmapXMLParser Report Documents.

(** X4.  The model keeps document order: a parsed model has one host
    for each [host] element of the root, in the same order, and a host
    has one port for each [port] element of its (first) [ports] element,
    in the same order, none when it has no [ports] element. *)
Theorem model_keeps_document_order :
  forall xml_file_ root_ p,
    __init__ xml_file_ (ET.WellFormed root_) = Ok p ->
    Forall2 (fun host_elem h =>
               _parse_host host_elem = Ok h
               /\ ports h
                  = match ET.find host_elem "ports" with
                    | Some ports_elem =>
                        map _parse_port (ET.findall ports_elem "port")
                    | None => []
                    end)
            (ET.findall root_ "host") (hosts p).
Proof.
  intros xml_file_ root_ p H; unfold __init__ in H; simpl in H.
  apply bind_Ok in H as [hosts_ [Hhosts H]]; injection H as <-; simpl.
  apply for_each_Forall2 in Hhosts.
  eapply Forall2_impl; [|exact Hhosts]; simpl.
  intros host_elem h Hh; split; [exact Hh|].
  unfold _parse_host in Hh.
  apply bind_Ok in Hh as [[[l s] extra] [Hports Hh]].
  injection Hh as <-; simpl.
  destruct (ET.find host_elem "ports") as [ports_elem|].
  - apply bind_Ok in Hports as [extras [_ Hports]].
    injection Hports as Hports _.
    pose proof (parse_ports_map (ET.findall ports_elem "port")
                                ([], zero_stats)) as Hm.
    rewrite Hports in Hm; exact Hm.
  - injection Hports as <- _ _; reflexivity.
Qed.

(** A scan of one host with one port. *)
Lemma model_keeps_document_order_witness :
  exists p,
    __init__ scan_xml port_80_open = Ok p
    /\ Forall2 (fun host_elem h =>
                  _parse_host host_elem = Ok h
                  /\ ports h
                     = match ET.find host_elem "ports" with
                       | Some ports_elem =>
                           map _parse_port (ET.findall ports_elem "port")
                       | None => []
                       end)
               (ET.findall (one_port_root [("portid", "80")%string] "open")
                           "host")
               (hosts p).
Proof.
  eexists; split; [vm_compute; reflexivity|].
  apply (@model_keeps_document_order scan_xml); vm_compute; reflexivity.
Defined.

(** X5.  Host names: an entry is stored for each [hostname] element
    with a non-empty [name], in document order, duplicates included; no
    stored entry has an empty name; without a [hostnames] element there
    is none. *)
Theorem hostnames_are_the_named_ones :
  forall host_elem h,
    _parse_host host_elem = Ok h ->
    Forall (fun entry => truthy (name entry) = true) (hostnames h)
    /\ map name (hostnames h)
       = match ET.find host_elem "hostnames" with
         | Some hostnames_elem =>
             filter truthy
                    (map (fun e => ET.get e "name" "")
                         (ET.findall hostnames_elem "hostname"))
         | None => []
         end.
Proof.
  intros host_elem h H; unfold _parse_host in H.
  apply bind_Ok in H as [pe [_ H]]; injection H as <-; simpl.
  destruct (ET.find host_elem "hostnames") as [hostnames_elem|];
    [|split; [constructor | reflexivity]].
  induction (ET.findall hostnames_elem "hostname") as [|e l [IH1 IH2]];
    simpl; [split; [constructor | reflexivity]|].
  destruct (truthy (ET.get e "name" "")) eqn:E; simpl; [|auto].
  split; [constructor; [exact E | exact IH1] | rewrite IH2; reflexivity].
Qed.

Lemma hostnames_are_the_named_ones_witness :
  exists h,
    _parse_host two_ports_elements = Ok h
    /\ Forall (fun entry => truthy (name entry) = true) (hostnames h)
    /\ map name (hostnames h) = [u "a.example"].
Proof.
  eexists; split; [vm_compute; reflexivity|].
  apply (@hostnames_are_the_named_ones two_ports_elements).
  vm_compute; reflexivity.
Defined.

(** X6.  Condensed ports: of several [extraports] elements the last one
    is the one kept, the earlier ones are dropped; a [ports] element
    without any, or a host without [ports], has none. *)
Theorem last_extraports_wins :
  forall host_elem h,
    _parse_host host_elem = Ok h ->
    match ET.find host_elem "ports" with
    | Some ports_elem =>
        match List.last (map Some (ET.findall ports_elem "extraports"))
                        None with
        | Some last_elem =>
            exists extra, parse_extraports last_elem = Ok extra
                          /\ extraports h = Some extra
        | None => extraports h = None
        end
    | None => extraports h = None
    end.
Proof.
  intros host_elem h H; unfold _parse_host in H.
  apply bind_Ok in H as [[counted_ extra] [Hports H]].
  injection H as <-; simpl.
  destruct (ET.find host_elem "ports") as [ports_elem|].
  - apply bind_Ok in Hports as [extras [Hextras Hports]].
    injection Hports as _ <-.
    apply for_each_last in Hextras.
    destruct (List.last (map Some (ET.findall ports_elem "extraports")) None).
    + destruct Hextras as [y [Hy Hl]]; eauto.
    + subst extras; reflexivity.
  - injection Hports as _ <-; reflexivity.
Qed.

Lemma last_extraports_wins_witness :
  exists h extra,
    _parse_host two_ports_elements = Ok h
    /\ extraports h = Some extra
    /\ extra_state extra = u "filtered" /\ extra_count extra = 9%Z.
Proof.
  destruct (@last_extraports_wins two_ports_elements
              (match _parse_host two_ports_elements with
               | Ok h => h
               | Raise _ => unknown_closed_host
               end)) as [extra [Hextra Hh]];
    [vm_compute; reflexivity|].
  eexists _, extra; split; [vm_compute; reflexivity|].
  split; [exact Hh|].
  vm_compute in Hextra; injection Hextra as <-; split; reflexivity.
Defined.

Lemma find_first_only (tg : str) (attrs : list (str * str))
    (cs : list ET.Element) (e : ET.Element) (t : string) :
  (exists c, In c cs /\ ET.tag c = ET.tag e) ->
  ET.find (ET.element tg attrs (cs ++ [e])) t
  = ET.find (ET.element tg attrs cs) t.
Proof.
  intros [c [Hc Htag]]; unfold ET.find; simpl.
  induction cs as [|c0 cs IH]; [destruct Hc|]; simpl.
  destruct (str_eqb (ET.tag c0) (u t)) eqn:E0; [reflexivity|].
  destruct Hc as [-> | Hc]; [|exact (IH Hc)].
  clear IH; rewrite Htag in E0.
  induction cs as [|c1 cs IH]; simpl; [rewrite E0; reflexivity|].
  destruct (str_eqb (ET.tag c1) (u t)); [reflexivity | exact IH].
Qed.

(** X7.  Only the first of several like-named children of a host is
    read: a further element whose tag the host already has (a second
    [ports], [address], [os] ...) changes nothing in the model, so the
    ports of a second [ports] element are dropped. *)
Theorem later_duplicate_elements_are_ignored :
  forall tg attrs cs e,
    (exists c, In c cs /\ ET.tag c = ET.tag e) ->
    _parse_host (ET.element tg attrs (cs ++ [e]))
    = _parse_host (ET.element tg attrs cs).
Proof.
  intros tg attrs cs e H; unfold _parse_host.
  rewrite !(find_first_only tg attrs cs e _ H); reflexivity.
Qed.

(** A second [ports] element, with port 80, after the first. *)
Lemma later_duplicate_elements_are_ignored_witness :
  _parse_host (ET.element (u "host") []
                 (ET.children two_ports_elements ++ [second_ports]))
  = _parse_host (ET.element (u "host") [] (ET.children two_ports_elements)).
Proof.
  apply later_duplicate_elements_are_ignored.
  eexists; split; [right; left; reflexivity | reflexivity].
Defined.

End ParserMore.

(** ** More on the renderer *)

Section RenderMore.
Import Py NmapXMLParser Report Documents.

Lemma renderable_dec (host : host_info) :
  renderable host
  \/ Exists (fun p => int (portid p) = None) (listed_ports host).
Proof. apply numeric_dec. Qed.

Lemma _format_host_renderable (host : host_info) (i : nat) :
  renderable host -> exists ls, _format_host host i = Ok ls.
Proof.
  unfold renderable, listed_ports; rewrite <- !ports_in_state_spec; intros H.
  apply Forall_app in H as [Ho H]; apply Forall_app in H as [Hf Hc].
  destruct (open_ports_lines_numeric host Ho) as [lo [_ Hlo]].
  destruct (filtered_ports_lines_numeric host Hf) as [lf [_ Hlf]].
  assert (Hc' : length (ports_in_state host "closed") <= 10 ->
                Forall numeric (ports_in_state host "closed")).
  { intros Hle; apply Nat.leb_le in Hle; rewrite Hle in Hc; exact Hc. }
  destruct (closed_ports_lines_numeric host Hc') as [lc [Hlc _]].
  eexists; apply _format_host_blocks; eassumption.
Qed.

Lemma _format_host_not_renderable (host : host_info) (i : nat) :
  Exists (fun p => int (portid p) = None) (listed_ports host) ->
  _format_host host i = Raise ValueError.
Proof.
  unfold listed_ports; rewrite <- !ports_in_state_spec; intros H.
  unfold _format_host.
  destruct (open_ports_lines_outcome host) as [[lo Ho] | Ho];
    rewrite Ho; [|reflexivity]; simpl.
  destruct (filtered_ports_lines_outcome host) as [[lf Hf] | Hf];
    rewrite Hf; [|reflexivity]; simpl.
  apply Exists_app in H as [H | H];
    [rewrite (open_ports_lines_raise host H) in Ho; discriminate|].
  apply Exists_app in H as [H | H];
    [rewrite (filtered_ports_lines_raise host H) in Hf; discriminate|].
  destruct (length (ports_in_state host "closed") <=? 10) eqn:E;
    [|inversion H].
  apply Nat.leb_le in E.
  rewrite (closed_ports_lines_raise host H E); reflexivity.
Qed.

Lemma not_renderable (host : host_info) :
  Exists (fun p => int (portid p) = None) (listed_ports host) ->
  ~ renderable host.
Proof.
  intros Hex Hall; apply Exists_exists in Hex as [p [Hin Hp]].
  exact (proj1 (Forall_forall _ _) Hall p Hin Hp).
Qed.

Lemma format_hosts_renderable (hosts_ : list host_info) :
  forall i,
    (Forall renderable hosts_ /\ exists ls, format_hosts hosts_ i = Ok ls)
    \/ (Exists (fun h => ~ renderable h) hosts_
        /\ format_hosts hosts_ i = Raise ValueError).
Proof.
  induction hosts_ as [|host rest IH]; intros i; simpl.
  - left; split; [constructor | eauto].
  - destruct (renderable_dec host) as [Hr | Hn].
    + destruct (@_format_host_renderable host i Hr) as [ls ->]; simpl.
      destruct (IH (S i)) as [[Hall [ls' ->]] | [Hex ->]]; simpl.
      * left; split; [constructor; assumption | eauto].
      * right; split; [apply Exists_cons_tl, Hex | reflexivity].
    + rewrite (@_format_host_not_renderable host i Hn); simpl.
      right; split; [apply Exists_cons_hd, not_renderable, Hn | reflexivity].
Qed.

(** X8.  A model renders exactly when every port the renderer lists
    (open, filtered, and closed when a host has at most 10 of them) has
    a port id that reads as an integer; otherwise building the report
    raises [ValueError], whatever else the model holds. *)
Theorem report_renders_iff_listed_ports_are_numbered :
  forall self now,
    (Forall renderable (hosts self)
     /\ exists text, _build_report self now = Ok text)
    \/ (Exists (fun h => ~ renderable h) (hosts self)
        /\ _build_report self now = Raise ValueError).
Proof.
  intros self now.
  destruct (format_hosts_renderable (hosts self) 1)
    as [[Hall [ls Hls]] | [Hex Hraise]].
  - left; split; [exact Hall|].
    unfold _build_report, report_lines; rewrite Hls; simpl; eauto.
  - right; split; [exact Hex | apply _build_report_raise, Hraise].
Qed.

(** X9.  Of the OS matches stored for a host at most three are shown,
    the first three in stored order, under one heading line; a host
    without matches has no such section. *)
Theorem os_section_shows_three_at_most :
  forall host,
    length (os_lines host) <= 4
    /\ (os host = [] -> os_lines host = [])
    /\ (os host <> [] ->
        exists shown,
          os_lines host = (LF :: u "OS DETECTION:") :: shown
          /\ length shown = Nat.min 3 (length (os host))
          /\ forall k m,
               k < 3 -> nth_error (os host) k = Some m ->
               nth_error shown k
               = Some (u "  " ++ os_name m ++ u " (" ++ accuracy m
                         ++ u "%)")).
Proof.
  intros host; unfold os_lines.
  destruct (os host) as [|m0 l] eqn:E.
  - split; [simpl; lia|]; split; [reflexivity | congruence].
  - change (nonempty (m0 :: l)) with true; cbv iota.
    set (ms := m0 :: l).
    set (shown := map (fun os_match => u "  " ++ os_name os_match ++ u " ("
                                         ++ accuracy os_match ++ u "%)")
                      (firstn 3 ms)).
    assert (Hlen : length shown = Nat.min 3 (length ms))
      by (unfold shown; rewrite length_map, length_firstn; reflexivity).
    split; [|split; [discriminate|intros _]].
    + change (S (length shown) <= 4); lia.
    + exists shown; split; [reflexivity|]; split; [exact Hlen|].
      intros k m Hk Hm; unfold shown.
      rewrite nth_error_map, nth_error_firstn.
      apply Nat.ltb_lt in Hk; rewrite Hk, Hm; reflexivity.
Qed.

(** Five matches stored, three shown. *)
Lemma os_section_shows_three_at_most_witness :
  exists shown,
    os_lines five_matches = (LF :: u "OS DETECTION:") :: shown
    /\ length shown = Nat.min 3 (length (os five_matches))
    /\ forall k m,
         k < 3 -> nth_error (os five_matches) k = Some m ->
         nth_error shown k
         = Some (u "  " ++ os_name m ++ u " (" ++ accuracy m ++ u "%)").
Proof.
  apply (proj2 (proj2 (os_section_shows_three_at_most five_matches))).
  simpl; discriminate.
Defined.

Lemma filter_flat_map_length {A B} (f : A -> list B) (p : B -> bool)
    (l : list A) :
  length (filter p (flat_map f l))
  = list_sum (map (fun x => length (filter p (f x))) l).
Proof.
  induction l as [|x l IH]; simpl; [reflexivity|].
  rewrite filter_app, length_app, IH; reflexivity.
Qed.

Lemma list_sum_ext_Forall {A} (f g : A -> nat) (l : list A) :
  Forall (fun x => f x = g x) l ->
  list_sum (map f l) = list_sum (map g l).
Proof. induction 1; simpl; congruence. Qed.

(** X10.  In the summary of a parsed model the totals of open, closed
    and filtered ports are the numbers of ports in that state over all
    hosts of the document, and the host total is the number of hosts. *)
Theorem summary_totals_count_the_ports :
  forall xml_file_ d p,
    __init__ xml_file_ d = Ok p ->
    In (u "  Total Open: " ++ str_of_nat (length (all_in_state p "open")))
       (_format_summary p)
    /\ In (u "  Total Closed: "
             ++ str_of_nat (length (all_in_state p "closed")))
          (_format_summary p)
    /\ In (u "  Total Filtered: "
             ++ str_of_nat (length (all_in_state p "filtered")))
          (_format_summary p)
    /\ In (u "Total Hosts Scanned: " ++ str_of_nat (length (hosts p)))
          (_format_summary p).
Proof.
  intros xml_file_ d p H.
  assert (Hc : Forall (fun h => counted (ports h) (port_stats h)) (hosts p)).
  { unfold __init__ in H.
    apply bind_Ok in H as [root_ [_ H]].
    apply bind_Ok in H as [hosts_ [Hhosts H]].
    injection H as <-; simpl.
    eapply for_each_Forall; [|exact Hhosts].
    intros host_elem h Hh; exact (_parse_host_counted _ Hh). }
  unfold all_in_state; rewrite !filter_flat_map_length.
  rewrite <- (list_sum_ext_Forall (fun h => open (port_stats h)) _
                (Forall_impl _ (fun h Hh => proj1 (proj2 Hh)) Hc)).
  rewrite <- (list_sum_ext_Forall (fun h => closed (port_stats h)) _
                (Forall_impl _ (fun h Hh => proj1 (proj2 (proj2 Hh))) Hc)).
  rewrite <- (list_sum_ext_Forall (fun h => filtered (port_stats h)) _
                (Forall_impl _ (fun h Hh => proj2 (proj2 (proj2 Hh))) Hc)).
  unfold _format_summary; cbv zeta.
  repeat split; simpl In; tauto.
Qed.

Lemma summary_totals_count_the_ports_witness :
  exists p,
    __init__ scan_xml port_80_open = Ok p
    /\ In (u "  Total Open: " ++ str_of_nat (length (all_in_state p "open")))
          (_format_summary p).
Proof.
  eexists; split; [vm_compute; reflexivity|].
  apply (@summary_totals_count_the_ports scan_xml port_80_open).
  vm_compute; reflexivity.
Defined.



(** X12.  A well-formed document without [host] elements is a valid
    scan: it parses to a model without hosts, and its report is the
    header, the scan information with [Total Hosts: 0], and a summary of
    zeros. *)
Theorem report_of_a_scan_without_hosts :
  forall xml_file_ root_ now,
    ET.findall root_ "host" = [] ->
    exists p,
      __init__ xml_file_ (ET.WellFormed root_) = Ok p
      /\ hosts p = []
      /\ report_lines p now
         = Ok (empty_report_lines xml_file_ (ET.get root_ "args" "N/A")
                 (ET.get root_ "version" "N/A") now)
      /\ _build_report p now
         = Ok (join [LF]
                 (empty_report_lines xml_file_ (ET.get root_ "args" "N/A")
                    (ET.get root_ "version" "N/A") now)).
Proof.
  intros xml_file_ root_ now Hnone.
  exists {| xml_file := xml_file_; root := root_; hosts := [] |}.
  assert (Hlines : report_lines
                     {| xml_file := xml_file_; root := root_; hosts := [] |}
                     now
                   = Ok (empty_report_lines xml_file_
                           (ET.get root_ "args" "N/A")
                           (ET.get root_ "version" "N/A") now))
    by reflexivity.
  split; [|split; [reflexivity|split; [exact Hlines|]]].
  - unfold __init__, parse_xml; simpl; rewrite Hnone; reflexivity.
  - unfold _build_report; rewrite Hlines; reflexivity.
Qed.

Lemma report_of_a_scan_without_hosts_witness :
  exists p,
    __init__ scan_xml (ET.WellFormed no_host_root) = Ok p
    /\ hosts p = []
    /\ report_lines p noon
       = Ok (empty_report_lines scan_xml (ET.get no_host_root "args" "N/A")
               (ET.get no_host_root "version" "N/A") noon)
    /\ _build_report p noon
       = Ok (join [LF]
               (empty_report_lines scan_xml (ET.get no_host_root "args" "N/A")
                  (ET.get no_host_root "version" "N/A") noon)).
Proof.
  apply report_of_a_scan_without_hosts; reflexivity.
Defined.

End RenderMore.

(** ** More on text *)

Section TextFacts.
Import Py.



Lemma startswith_prefix (s p : str) :
  startswith s p = true -> exists rest, s = p ++ rest.
Proof.
  revert s; induction p as [|d p IH]; intros s H; [exists s; reflexivity|].
  destruct s as [|c s]; [discriminate|]; simpl in H.
  apply andb_true_iff in H as [Hc H]; apply N.eqb_eq in Hc; subst d.
  destruct (IH s H) as [rest ->]; exists rest; reflexivity.
Qed.

Lemma replace_removes (old new : char) (s : str) :
  old <> new -> ~ In old (replace old new s).
Proof.
  intros Hne; induction s as [|c s IH]; simpl; [tauto|].
  intros [H | H]; [|exact (IH H)].
  destruct (c =? old)%N eqn:E; [congruence|].
  apply N.eqb_neq in E; congruence.
Qed.

Lemma replace_keeps_out (c old new : char) (s : str) :
  c <> new -> ~ In c s -> ~ In c (replace old new s).
Proof.
  intros Hne; induction s as [|x s IH]; simpl; [tauto|].
  intros Hout [H | H]; [|apply IH; tauto].
  destruct (x =? old)%N; [congruence | tauto].
Qed.

Lemma split_nonempty (sep : char) (s : str) : split sep s <> [].
Proof.
  induction s as [|c s IH]; simpl; [discriminate|].
  destruct (c =? sep)%N; [discriminate|].
  destruct (split sep s); discriminate.
Qed.

Lemma split_app (sep : char) (a r : str) :
  split sep (a ++ sep :: r) = split sep a ++ split sep r.
Proof.
  induction a as [|c a IH]; simpl.
  - rewrite N.eqb_refl; reflexivity.
  - destruct (c =? sep)%N; [rewrite IH; reflexivity|].
    rewrite IH; pose proof (split_nonempty sep a) as Hne.
    destruct (split sep a); [congruence | reflexivity].
Qed.

(** Joining with a separator and cutting at it again cuts every element
    at the separators it holds. *)
Lemma split_join (sep : char) (l : list str) :
  l <> [] -> split sep (join [sep] l) = flat_map (split sep) l.
Proof.
  induction l as [|a l IH]; [congruence|]; intros _.
  destruct l as [|a' l]; [simpl; rewrite app_nil_r; reflexivity|].
  change (join [sep] (a :: a' :: l)) with (a ++ sep :: join [sep] (a' :: l)).
  rewrite split_app, IH; [reflexivity | discriminate].
Qed.

End TextFacts.

(** ** The export dialog and the script of the parser *)

Section ExportMore.
Import Py NmapXMLParser Report Documents Forms.





End ExportMore.

(** ** The command built from the scan form *)

Section CommandMore.
Import Py Documents Forms CardioNetApp.

Lemma not_In_computed (c : char) (s : str) :
  existsb (N.eqb c) s = false -> ~ In c s.
Proof.
  intros H Hin.
  assert (Hex : existsb (N.eqb c) s = true)
    by (apply existsb_exists; exists c; split; [exact Hin | apply N.eqb_refl]).
  congruence.
Qed.

Lemma extension_cases (value : str) :
  (value = u "oG" /\ extension value = u "gnmap")
  \/ (value = u "oX" /\ extension value = u "xml")
  \/ (value <> u "oX" /\ extension value = u "txt").
Proof.
  unfold extension.
  destruct (str_eqb value (u "oG")) eqn:EG.
  - left; split; [apply str_eqb_eq, EG | reflexivity].
  - destruct (str_eqb value (u "oX")) eqn:EX.
    + right; left; split; [apply str_eqb_eq, EX | reflexivity].
    + right; right; split; [|reflexivity].
      intros H; apply str_eqb_eq in H; congruence.
Qed.

Lemma target_name_no_slash (self : t) : ~ In SLASH (target_name self).
Proof.
  unfold target_name; apply replace_keeps_out;
    [discriminate | apply replace_removes; discriminate].
Qed.

Lemma output_selected (self : t) :
  output_value (scan self) <> [] ->
  negb (str_eqb (output_value (scan self)) []) = true.
Proof.
  intros H; destruct (str_eqb (output_value (scan self)) []) eqn:E;
    [apply str_eqb_eq in E; contradiction | reflexivity].
Qed.

(** X15.  When an output format is selected, the scan is written to a
    file directly in [/tmp]: whatever the target field holds (slashes
    and dots in it become underscores), the name after [/tmp/] has no
    slash in it. *)
Theorem output_file_is_directly_in_tmp :
  forall self timestamp,
    output_value (scan self) <> [] ->
    ~ In SLASH timestamp ->
    exists base,
      output_file (handle_parameters_changed self timestamp)
      = u "/tmp/" ++ base
      /\ ~ In SLASH base.
Proof.
  intros self timestamp Hout Hts.
  exists (u "nmap_scan_" ++ target_name self ++ u "_" ++ timestamp ++ u "."
            ++ extension (output_value (scan self))).
  split.
  - unfold handle_parameters_changed; simpl output_file.
    rewrite (output_selected self Hout); reflexivity.
  - rewrite !in_app_iff.
    pose proof (target_name_no_slash self) as Htn.
    assert (Hext : ~ In SLASH (extension (output_value (scan self)))).
    { destruct (extension_cases (output_value (scan self)))
        as [[_ ->] | [[_ ->] | [_ ->]]];
        apply not_In_computed; reflexivity. }
    assert (H1 : ~ In SLASH (u "nmap_scan_"))
      by (apply not_In_computed; reflexivity).
    assert (H2 : ~ In SLASH (u "_")) by (apply not_In_computed; reflexivity).
    assert (H3 : ~ In SLASH (u ".")) by (apply not_In_computed; reflexivity).
    tauto.
Qed.

Lemma output_file_is_directly_in_tmp_witness :
  exists base,
    output_file (handle_parameters_changed syn_scan_xml stamp)
    = u "/tmp/" ++ base
    /\ ~ In SLASH base.
Proof.
  apply output_file_is_directly_in_tmp;
    [simpl; discriminate | apply not_In_computed; reflexivity].
Defined.

(** X16.  When an output format is selected, the file name ends in
    [.xml] exactly when the format is [oX]: only then does the export
    dialog, which looks at that ending, offer to parse the scan. *)
Theorem output_file_is_xml_iff_oX :
  forall self timestamp,
    output_value (scan self) <> [] ->
    (endswith (output_file (handle_parameters_changed self timestamp))
              (u ".xml") = true
     <-> output_value (scan self) = u "oX").
Proof.
  intros self timestamp Hout.
  unfold handle_parameters_changed; simpl output_file.
  rewrite (output_selected self Hout); unfold filename, endswith.
  rewrite !rev_app_distr.
  destruct (extension_cases (output_value (scan self)))
    as [[Hv ->] | [[Hv ->] | [Hv ->]]]; simpl; split; intros H;
    try reflexivity; try discriminate; try assumption; try contradiction.
  - rewrite Hv in H; discriminate H.
  - match goal with |- startswith ?s [] = true => destruct s end;
      reflexivity.
Qed.

Lemma output_file_is_xml_iff_oX_witness :
  endswith (output_file (handle_parameters_changed syn_scan_xml stamp))
           (u ".xml") = true
  <-> output_value (scan syn_scan_xml) = u "oX".
Proof.
  apply output_file_is_xml_iff_oX; simpl; discriminate.
Defined.

Lemma command_starts_with_nmap (self : t) (timestamp : str) :
  exists rest, command_as_list self timestamp = u "nmap" :: rest.
Proof.
  unfold command_as_list; cbv zeta.
  repeat match goal with
         | |- context [if ?c then _ else _] => destruct c
         end;
    simpl; eauto.
Qed.

(** X17.  What [action_run_scan] starts after the form was changed: the
    argument list is the command list with every element cut at its
    spaces (the command is joined with spaces and split at spaces
    again), and its first element is [nmap].  The log is cleared first,
    so afterwards it holds the lines of this run only. *)
Theorem run_arguments_are_the_command_cut_at_spaces :
  forall self timestamp process,
    let self' := handle_parameters_changed self timestamp in
    let argv := flat_map (split SPACE) (command_as_list self timestamp) in
    split SPACE (cmd self') = argv
    /\ hd_error argv = Some (u "nmap")
    /\ action_run_scan self' process
       = match process argv with
         | Raise e => (with_log self' Logs.cleared, Raise e)
         | Ok (stdout, returncode) =>
             (with_log self'
                (fst (Logs.stream_process Logs.cleared stdout returncode)),
              snd (Logs.stream_process Logs.cleared stdout returncode))
         end.
Proof.
  intros self timestamp process self' argv.
  destruct (command_starts_with_nmap self timestamp) as [rest Hcmd].
  assert (Hsplit : split SPACE (cmd self') = argv).
  { unfold self', argv, handle_parameters_changed; simpl cmd.
    apply split_join; rewrite Hcmd; discriminate. }
  split; [exact Hsplit|]; split.
  - unfold argv; rewrite Hcmd; reflexivity.
  - unfold action_run_scan; rewrite Hsplit.
    destruct (process argv) as [[stdout returncode]|e]; [|reflexivity].
    change (Logs.clear (results_log self')) with Logs.cleared.
    destruct (Logs.stream_process Logs.cleared stdout returncode);
      reflexivity.
Qed.

(** X18.  The extras dialog and the application agree on the order of
    the three flags: after the dialog is applied each flag of the
    application is the box of the same name, and a ticked box puts its
    option ([-O], [-sV], [-vv]) into the command. *)
Theorem extras_reach_the_command :
  forall self modal timestamp,
    exists self',
      _get_extra_options self (Modals.on_button_pressed modal) = Ok self'
      /\ verbose self' = Modals.verbose_value modal
      /\ os self' = Modals.os_value modal
      /\ version_detection self' = Modals.version_detection_value modal
      /\ (if Modals.os_value modal
          then In (u "-O") (command_as_list self' timestamp) else True)
      /\ (if Modals.version_detection_value modal
          then In (u "-sV") (command_as_list self' timestamp) else True)
      /\ (if Modals.verbose_value modal
          then In (u "-vv") (command_as_list self' timestamp) else True).
Proof.
  intros self [v o sv] timestamp; eexists; split; [reflexivity|].
  simpl; split; [reflexivity|]; split; [reflexivity|];
    split; [reflexivity|].
  unfold command_as_list; cbv zeta; simpl os; simpl verbose;
    simpl version_detection.
  split; [|split];
    match goal with |- if ?flag then _ else True => destruct flag end;
    try exact I;
    repeat match goal with
           | |- context [if ?c then _ else _] => destruct c
           end;
    rewrite ?in_app_iff; simpl; tauto.
Qed.

End CommandMore.
